(** * Rigol DP832 control and discovery client: a shallow embedding

    The Python sources embedded here are
    - [rigol_dp832.py]        the instrument client, class [DP832];
    - [discovery.py]          the subnet scanner and its single-address probe;
    - [rigol_dp832/test_ip.py] the second, stand-alone single-address probe.

    Python strings are modelled by [string].  pyvisa decodes every reply with
    the [ascii] codec, so a reply only holds characters below 128; on that
    range [strip], [upper], [split] and [contains] below follow CPython.
    Calls that reach the outside world (the VISA session, the ping
    subprocess, the local socket, the thread pool) are nodes of a program
    tree, [prog]; an [env] answers them and [run] records the calls issued.
    Console output ([print], [logger.info]) is not modelled. *)

From Stdlib Require Import String Ascii List ZArith NArith Lia Bool.
From Stdlib Require Import DecimalString DecimalZ Permutation.
Import ListNotations.
Local Open Scope list_scope.
Local Open Scope string_scope.
Local Open Scope nat_scope.

(** ** Python strings *)

Module PyStr.

(** [str.isspace] on one character below 128: TAB, LF, VT, FF, CR, the four
    separators FS, GS, RS, US, and the blank. *)
Definition isspace (c : ascii) : bool :=
  let n := nat_of_ascii c in
  ((9 <=? n) && (n <=? 13)) || ((28 <=? n) && (n <=? 31)) || (n =? 32).

Fixpoint lstrip (s : string) : string :=
  match s with
  | EmptyString => EmptyString
  | String c s' => if isspace c then lstrip s' else s
  end.

Fixpoint rstrip (s : string) : string :=
  match s with
  | EmptyString => EmptyString
  | String c s' =>
      match rstrip s' with
      | EmptyString => if isspace c then EmptyString else String c EmptyString
      | r => String c r
      end
  end.

(** [s.strip()] *)
Definition strip (s : string) : string := rstrip (lstrip s).

Definition upper_char (c : ascii) : ascii :=
  let n := nat_of_ascii c in
  if (97 <=? n) && (n <=? 122) then ascii_of_nat (n - 32) else c.

(** [s.upper()] *)
Fixpoint upper (s : string) : string :=
  match s with
  | EmptyString => EmptyString
  | String c s' => String (upper_char c) (upper s')
  end.

(** [needle in hay] *)
Fixpoint contains (needle hay : string) : bool :=
  String.prefix needle hay
  || match hay with
     | EmptyString => false
     | String _ hay' => contains needle hay'
     end.

(** [s.split(sep)] for a one-character separator: never the empty list. *)
Fixpoint split (sep : ascii) (s : string) : list string :=
  match s with
  | EmptyString => [EmptyString]
  | String c s' =>
      if Ascii.eqb c sep then EmptyString :: split sep s'
      else match split sep s' with
           | f :: fs => String c f :: fs
           | [] => [String c EmptyString]
           end
  end.

(** [sep.join(parts)] *)
Fixpoint join (sep : string) (parts : list string) : string :=
  match parts with
  | [] => EmptyString
  | [p] => p
  | p :: ps => p ++ sep ++ join sep ps
  end.

(** [str(n)] for an [int], as an f-string field renders it. *)
Definition str_int (n : Z) : string := NilZero.string_of_int (Z.to_int n).

Definition hex_digit (n : nat) : ascii :=
  if n <? 10 then ascii_of_nat (48 + n) else ascii_of_nat (87 + n).

(** One character of [repr(s)] inside quotes [q]. *)
Definition repr_char (q c : ascii) : string :=
  let n := nat_of_ascii c in
  if Ascii.eqb c q || (n =? 92) then String (ascii_of_nat 92) (String c EmptyString)
  else if n =? 9 then String (ascii_of_nat 92) "t"
  else if n =? 10 then String (ascii_of_nat 92) "n"
  else if n =? 13 then String (ascii_of_nat 92) "r"
  else if (n <? 32) || (n =? 127) then
    String (ascii_of_nat 92)
      (String "x" (String (hex_digit (n / 16)) (String (hex_digit (n mod 16)) EmptyString)))
  else String c EmptyString.

Fixpoint repr_body (q : ascii) (s : string) : string :=
  match s with
  | EmptyString => EmptyString
  | String c s' => repr_char q c ++ repr_body q s'
  end.

Definition squote : ascii := ascii_of_nat 39.
Definition dquote : ascii := ascii_of_nat 34.

Fixpoint has_char (c : ascii) (s : string) : bool :=
  match s with
  | EmptyString => false
  | String d s' => Ascii.eqb c d || has_char c s'
  end.

(** [repr(s)]: single quotes, unless [s] holds a single quote and no double
    quote. *)
Definition repr (s : string) : string :=
  let q := if has_char squote s && negb (has_char dquote s) then dquote else squote in
  String q (repr_body q s ++ String q EmptyString).

End PyStr.

(** ** Exceptions and results *)

Inductive exn_class : Type :=
| ValueError
| IndexError
| ImportError
| VisaIOError
| UnicodeDecodeError
| OSError
| TimeoutExpired
| OtherException (name : string).

(** A raised exception: its class and its message. *)
Record exn : Type := Exn { exn_cls : exn_class; exn_msg : string }.

Inductive result (A : Type) : Type :=
| Ok (a : A)
| Raise (e : exn).
Arguments Ok {A} a.
Arguments Raise {A} e.

(** ** Calls to the outside world *)

Inductive io : Type :=
| Query (cmd : string)                          (* inst.query(cmd) *)
| Write (cmd : string)                          (* inst.write(cmd) *)
| ImportPyvisa                                  (* import pyvisa *)
| ResourceManager                               (* pyvisa.ResourceManager() *)
| OpenResource (resource : string) (timeout : Z) (* rm.open_resource(...) *)
| InstClose                                     (* inst.close() *)
| RmClose                                       (* rm.close() *)
| LocalAddress                                  (* UDP socket to 8.8.8.8, getsockname()[0] *)
| Ping (ip : string)                            (* subprocess.run(["ping","-c","1","-W","1",ip], timeout=2).returncode *)
| AsCompleted (ips : list string).              (* order in which the pool's futures complete *)

(** What a call hands back.  Every call but the completion order can raise. *)
Definition resp (e : io) : Type :=
  match e with
  | Query _ | LocalAddress => result string
  | Ping _ => result Z
  | AsCompleted _ => list string
  | _ => result unit
  end.

(** A program: a tree of calls, each continued on the answer received. *)
Inductive prog (A : Type) : Type :=
| Ret (a : A)
| Throw (e : exn)
| Vis (e : io) (k : resp e -> prog A).
Arguments Ret {A} a.
Arguments Throw {A} e.
Arguments Vis {A} e k.

Fixpoint bind {A B : Type} (p : prog A) (f : A -> prog B) : prog B :=
  match p with
  | Ret a => f a
  | Throw e => Throw e
  | Vis e k => Vis e (fun r => bind (k r) f)
  end.

(** [try: p except: h] *)
Fixpoint catch {A : Type} (p : prog A) (h : exn -> prog A) : prog A :=
  match p with
  | Ret a => Ret a
  | Throw e => h e
  | Vis e k => Vis e (fun r => catch (k r) h)
  end.

(** Whether a class derives from [Exception]: all do but the ones Python
    keeps beside it under [BaseException]. *)
Definition derives_from_Exception (c : exn_class) : bool :=
  match c with
  | OtherException name =>
      negb (existsb (String.eqb name)
              ["KeyboardInterrupt"; "SystemExit"; "GeneratorExit"; "BaseException"])
  | _ => true
  end.

(** [try: p except Exception: h]: an exception outside [Exception] is not
    handled and goes on. *)
Fixpoint catch_Exception {A : Type} (p : prog A) (h : exn -> prog A) : prog A :=
  match p with
  | Ret a => Ret a
  | Throw e => if derives_from_Exception (exn_cls e) then h e else Throw e
  | Vis e k => Vis e (fun r => catch_Exception (k r) h)
  end.

Notation "x <- p ;; q" := (bind p (fun x => q))
  (at level 100, p at next level, right associativity).
Notation "p ;;; q" := (bind p (fun _ => q))
  (at level 100, right associativity).

Definition lift {A : Type} (r : result A) : prog A :=
  match r with
  | Ok a => Ret a
  | Raise e => Throw e
  end.

(** The environment answers a call knowing every call issued before it. *)
Definition env : Type := forall (history : list io) (e : io), resp e.

Fixpoint run {A : Type} (w : env) (p : prog A) (history : list io)
  : result A * list io :=
  match p with
  | Ret a => (Ok a, history)
  | Throw e => (Raise e, history)
  | Vis e k => run w (k (w history e)) (history ++ [e])%list
  end.

(** ** Python lists *)

(** [l[i]]: a negative index counts from the end; out of range raises. *)
Definition getitem {A : Type} (l : list A) (i : Z) : prog A :=
  let n := Z.of_nat (length l) in
  let j := if (i <? 0)%Z then (i + n)%Z else i in
  if (j <? 0)%Z then Throw (Exn IndexError "list index out of range")
  else match nth_error l (Z.to_nat j) with
       | Some a => Ret a
       | None => Throw (Exn IndexError "list index out of range")
       end.

(** A dict with string keys, in insertion order. *)
Abbreviation dict V := (list (string * V)%type) (only parsing).

(** [{key: f(key) for key in keys}], a dict with integer keys in insertion
    order; the keys met here are distinct. *)
Fixpoint dict_comprehension {V : Type} (f : Z -> prog V) (keys : list Z)
  : prog (list (Z * V)) :=
  match keys with
  | [] => Ret []
  | key :: rest =>
      value <- f key ;;
      d <- dict_comprehension f rest ;;
      Ret ((key, value) :: d)
  end.

(** The body of [with manager as x: body] once [__enter__] has answered:
    [__exit__] runs when the body ends, by a value or by an exception, and as
    it answers [None] the exception of the body goes on; an exception of
    [__exit__] itself takes its place. *)
Fixpoint with_exit {A : Type} (body : prog A) (exit : prog unit) : prog A :=
  match body with
  | Ret a => exit ;;; Ret a
  | Throw e => exit ;;; Throw e
  | Vis e k => Vis e (fun r => with_exit (k r) exit)
  end.

(** ** Python floats *)

(** The built-in float, as the client uses it: [float(s)] on a string, where
    [None] stands for the ValueError it raises, and the rendering of a float
    in an f-string. *)
Class PyFloat : Type := {
  pyfloat : Type;
  float_of_string : string -> option pyfloat;
  string_of_float : pyfloat -> string
}.

(** [float(s)] *)
Definition float {F : PyFloat} (s : string) : prog pyfloat :=
  match float_of_string s with
  | Some x => Ret x
  | None =>
      Throw (Exn ValueError ("could not convert string to float: " ++ PyStr.repr s))
  end.

(** *** A reference float

    [float(s)] accepts, between optional blanks, an optional sign followed
    by [inf], [infinity] or [nan] in any case, or by a decimal number
    [digits[.digits]] or [.digits] with an optional exponent
    [e[sign]digits]; one underscore may sit between two digits.  The
    reference float keeps the decimal number the text denotes and leaves out
    its rounding to binary64. *)

Module DecimalFloat.

Inductive decimal : Type :=
| Finite (negative : bool) (mantissa : N) (exponent : Z)
| Infinity (negative : bool)
| NaN.

Definition is_digit (c : ascii) : bool :=
  let n := nat_of_ascii c in (48 <=? n) && (n <=? 57).

(** The blanks [float] skips: TAB, LF, VT, FF, CR and the blank. *)
Definition c_isspace (c : ascii) : bool :=
  let n := nat_of_ascii c in ((9 <=? n) && (n <=? 13)) || (n =? 32).

Fixpoint skip_space (s : string) : string :=
  match s with
  | EmptyString => EmptyString
  | String c s' => if c_isspace c then skip_space s' else s
  end.

Fixpoint drop_trailing (keep : ascii -> bool) (s : string) : string :=
  match s with
  | EmptyString => EmptyString
  | String c s' =>
      match drop_trailing keep s' with
      | EmptyString => if keep c then String c EmptyString else EmptyString
      | r => String c r
      end
  end.

(** Underscores go, when each stands between two digits. *)
Fixpoint remove_underscores (prev : ascii) (s : string) : option string :=
  match s with
  | EmptyString => if Ascii.eqb prev "_" then None else Some EmptyString
  | String c s' =>
      if Ascii.eqb c "_"
      then if is_digit prev then remove_underscores c s' else None
      else if Ascii.eqb prev "_" && negb (is_digit c) then None
           else option_map (String c) (remove_underscores c s')
  end.

Definition take_sign (s : string) : bool * string :=
  match s with
  | String "-" r => (true, r)
  | String "+" r => (false, r)
  | _ => (false, s)
  end.

Fixpoint span_digits (s : string) : string * string :=
  match s with
  | EmptyString => (EmptyString, EmptyString)
  | String c s' =>
      if is_digit c
      then let (d, r) := span_digits s' in (String c d, r)
      else (EmptyString, s)
  end.

Fixpoint digits_value (acc : N) (s : string) : N :=
  match s with
  | EmptyString => acc
  | String c s' => digits_value (10 * acc + N.of_nat (nat_of_ascii c - 48))%N s'
  end.

(** The number [sign int_part.frac_part * 10^e], without trailing zeros. *)
Definition make (negative : bool) (int_part frac_part : string) (e : Z) : decimal :=
  let all := int_part ++ frac_part in
  let kept := drop_trailing (fun c => negb (Ascii.eqb c "0")) all in
  let m := digits_value 0 kept in
  if (m =? 0)%N then Finite negative 0 0
  else Finite negative m
         (e - Z.of_nat (String.length frac_part)
          + Z.of_nat (String.length all - String.length kept))%Z.

Definition parse_number (s : string) : option decimal :=
  let (negative, r) := take_sign s in
  let (int_part, r1) := span_digits r in
  let (frac_part, r2) :=
    match r1 with
    | String "." r' => span_digits r'
    | _ => (EmptyString, r1)
    end in
  if String.eqb int_part "" && String.eqb frac_part "" then None
  else match r2 with
       | EmptyString => Some (make negative int_part frac_part 0)
       | String c r3 =>
           if Ascii.eqb c "e" || Ascii.eqb c "E" then
             let (eneg, r4) := take_sign r3 in
             let (edigits, r5) := span_digits r4 in
             if String.eqb edigits "" || negb (String.eqb r5 "") then None
             else let e := Z.of_N (digits_value 0 edigits) in
                  Some (make negative int_part frac_part (if eneg then - e else e)%Z)
           else None
       end.

Definition parse_inf_or_nan (s : string) : option decimal :=
  let (negative, r) := take_sign s in
  let u := PyStr.upper r in
  if String.eqb u "INF" || String.eqb u "INFINITY" then Some (Infinity negative)
  else if String.eqb u "NAN" then Some NaN
  else None.

(** [float(s)], [None] for ValueError. *)
Definition of_string (s : string) : option decimal :=
  match remove_underscores zero s with
  | None => None
  | Some t =>
      let body := drop_trailing (fun c => negb (c_isspace c)) (skip_space t) in
      match parse_inf_or_nan body with
      | Some x => Some x
      | None => parse_number body
      end
  end.

Fixpoint zeros (n : nat) : string :=
  match n with
  | O => EmptyString
  | S n' => String "0" (zeros n')
  end.

Definition two_digits (n : Z) : string :=
  let t := PyStr.str_int n in
  if (n <? 10)%Z then String "0" t else t.

(** [repr(x)]: plain notation while the decimal point falls within
    [-4 < point <= 16] of the first digit, exponent notation beyond. *)
Definition to_string (x : decimal) : string :=
  match x with
  | NaN => "nan"
  | Infinity negative => if negative then "-inf" else "inf"
  | Finite negative m e =>
      let sign := if negative then "-" else "" in
      if (m =? 0)%N then sign ++ "0.0"
      else
        let ds := NilZero.string_of_uint (N.to_uint m) in
        let n := Z.of_nat (String.length ds) in
        let point := (n + e)%Z in
        if (-4 <? point)%Z && (point <=? 16)%Z then
          if (point <=? 0)%Z then sign ++ "0." ++ zeros (Z.to_nat (- point)) ++ ds
          else if (n <=? point)%Z then sign ++ ds ++ zeros (Z.to_nat (point - n)) ++ ".0"
          else sign ++ substring 0 (Z.to_nat point) ds ++ "."
                 ++ substring (Z.to_nat point) (Z.to_nat (n - point)) ds
        else
          let x10 := (point - 1)%Z in
          sign ++ substring 0 1 ds
               ++ (if (1 <? n)%Z then "." ++ substring 1 (Z.to_nat (n - 1)) ds else "")
               ++ "e" ++ (if (x10 <? 0)%Z then "-" else "+") ++ two_digits (Z.abs x10)
  end.

#[export] Instance decimal_float : PyFloat :=
  {| pyfloat := decimal; float_of_string := of_string; string_of_float := to_string |}.

End DecimalFloat.

(** ** The instrument client: [rigol_dp832.py], class [DP832]

    The methods act on the session [self.inst] opened by [__init__]; each is
    a program over the calls [Query] and [Write] of that session. *)

Module DP832.

Definition query (cmd : string) : prog string := Vis (Query cmd) lift.
Definition write (cmd : string) : prog unit := Vis (Write cmd) lift.

(** [channel not in [1, 2, 3]] raises ValueError. *)
Definition _validate_channel (channel : Z) : prog unit :=
  if negb (existsb (Z.eqb channel) [1; 2; 3]%Z)
  then Throw (Exn ValueError
                ("Channel must be 1, 2, or 3, got " ++ PyStr.str_int channel))
  else Ret tt.

Definition CH (channel : Z) : string := "CH" ++ PyStr.str_int channel.

Definition id : prog (dict string) :=
  reply <- query "*IDN?" ;;
  let id_str := PyStr.split "," (PyStr.strip reply) in
  manufacturer <- getitem id_str 0 ;;
  model <- getitem id_str 1 ;;
  serial_number <- getitem id_str 2 ;;
  version <- getitem id_str 3 ;;
  Ret [("manufacturer", manufacturer); ("model", model);
       ("serial_number", serial_number); ("version", version)].

Definition get_output_state (channel : Z) : prog bool :=
  _validate_channel channel ;;;
  reply <- query (":OUTP:STAT? " ++ CH channel) ;;
  let state := PyStr.strip reply in
  Ret (String.eqb state "ON").

Definition set_output_state (channel : Z) (state : bool) : prog unit :=
  _validate_channel channel ;;;
  let state_str := if state then "ON" else "OFF" in
  write (":OUTP:STAT " ++ CH channel ++ "," ++ state_str).

Definition get_output_mode (channel : Z) : prog string :=
  _validate_channel channel ;;;
  reply <- query (":OUTP:MODE? " ++ CH channel) ;;
  let mode := PyStr.strip reply in
  Ret mode.

Definition get_ocp_enabled (channel : Z) : prog bool :=
  _validate_channel channel ;;;
  reply <- query (":OUTP:OCP? " ++ CH channel) ;;
  let state := PyStr.strip reply in
  Ret (String.eqb state "ON").

Definition set_ocp_enabled (channel : Z) (enabled : bool) : prog unit :=
  _validate_channel channel ;;;
  let state := if enabled then "ON" else "OFF" in
  write (":OUTP:OCP " ++ CH channel ++ "," ++ state).

Definition get_ovp_enabled (channel : Z) : prog bool :=
  _validate_channel channel ;;;
  reply <- query (":OUTP:OVP? " ++ CH channel) ;;
  let state := PyStr.strip reply in
  Ret (String.eqb state "ON").

Definition set_ovp_enabled (channel : Z) (enabled : bool) : prog unit :=
  _validate_channel channel ;;;
  let state := if enabled then "ON" else "OFF" in
  write (":OUTP:OVP " ++ CH channel ++ "," ++ state).

Definition get_ocp_alarm (channel : Z) : prog bool :=
  _validate_channel channel ;;;
  reply <- query (":OUTP:OCP:ALAR? " ++ CH channel) ;;
  let alarm := PyStr.strip reply in
  Ret (String.eqb alarm "YES").

Definition clear_ocp_alarm (channel : Z) : prog unit :=
  _validate_channel channel ;;;
  write (":OUTP:OCP:CLEAR " ++ CH channel).

Definition get_ovp_alarm (channel : Z) : prog bool :=
  _validate_channel channel ;;;
  reply <- query (":OUTP:OVP:ALAR? " ++ CH channel) ;;
  let alarm := PyStr.strip reply in
  Ret (String.eqb alarm "ON").

Definition clear_ovp_alarm (channel : Z) : prog unit :=
  _validate_channel channel ;;;
  write (":OUTP:OVP:CLEAR " ++ CH channel).

Section Floats.
Context {F : PyFloat}.

Definition get_channel_settings (channel : Z) : prog (dict pyfloat) :=
  _validate_channel channel ;;;
  reply <- query (":APPL? " ++ CH channel) ;;
  let settings := PyStr.split "," (PyStr.strip reply) in
  field_v <- getitem settings (-2) ;;
  voltage <- float field_v ;;
  field_i <- getitem settings (-1) ;;
  current <- float field_i ;;
  Ret [("voltage", voltage); ("current", current)].

Definition set_channel_settings (channel : Z) (voltage current : pyfloat)
  : prog unit :=
  _validate_channel channel ;;;
  write (":APPL " ++ CH channel ++ "," ++ string_of_float voltage
           ++ "," ++ string_of_float current).

Definition measure_voltage (channel : Z) : prog pyfloat :=
  _validate_channel channel ;;;
  reply <- query (":MEAS? " ++ CH channel) ;;
  let voltage := PyStr.strip reply in
  float voltage.

Definition measure_current (channel : Z) : prog pyfloat :=
  _validate_channel channel ;;;
  reply <- query (":MEAS:CURR? " ++ CH channel) ;;
  let current := PyStr.strip reply in
  float current.

Definition measure_power (channel : Z) : prog pyfloat :=
  _validate_channel channel ;;;
  reply <- query (":MEAS:ALL? " ++ CH channel) ;;
  let measurements := PyStr.split "," (PyStr.strip reply) in
  field_p <- getitem measurements 2 ;;
  float field_p.

Definition measure_all (channel : Z) : prog (dict pyfloat) :=
  _validate_channel channel ;;;
  reply <- query (":MEAS:ALL? " ++ CH channel) ;;
  let measurements := PyStr.split "," (PyStr.strip reply) in
  field_v <- getitem measurements 0 ;;
  voltage <- float field_v ;;
  field_i <- getitem measurements 1 ;;
  current <- float field_i ;;
  field_p <- getitem measurements 2 ;;
  power <- float field_p ;;
  Ret [("voltage", voltage); ("current", current); ("power", power)].

Definition get_ocp_value (channel : Z) : prog pyfloat :=
  _validate_channel channel ;;;
  reply <- query (":OUTP:OCP:VAL? " ++ CH channel) ;;
  let value := PyStr.strip reply in
  float value.

Definition set_ocp_value (channel : Z) (current : pyfloat) : prog unit :=
  _validate_channel channel ;;;
  write (":OUTP:OCP:VAL " ++ CH channel ++ "," ++ string_of_float current).

Definition get_ovp_value (channel : Z) : prog pyfloat :=
  _validate_channel channel ;;;
  reply <- query (":OUTP:OVP:VAL? " ++ CH channel) ;;
  let value := PyStr.strip reply in
  float value.

Definition set_ovp_value (channel : Z) (voltage : pyfloat) : prog unit :=
  _validate_channel channel ;;;
  write (":OUTP:OVP:VAL " ++ CH channel ++ "," ++ string_of_float voltage).

End Floats.

Definition get_all_output_states : prog (list (Z * bool)) :=
  dict_comprehension get_output_state [1; 2; 3]%Z.

Section AllFloats.
Context {F : PyFloat}.

Definition get_all_settings : prog (list (Z * dict pyfloat)) :=
  dict_comprehension get_channel_settings [1; 2; 3]%Z.

Definition get_all_measurements : prog (list (Z * dict pyfloat)) :=
  dict_comprehension measure_all [1; 2; 3]%Z.

End AllFloats.

(** The object: its plain attributes, and whether [rm] and [inst] have been
    set, which is what [hasattr] asks in [close]. *)
Record instance : Type := Instance_ {
  ip_address : string;
  port : Z;
  timeout : Z;
  resource_string : string;
  has_rm : bool;
  has_inst : bool
}.

Definition __init__ (ip_address : string) (port timeout : Z) : prog instance :=
  let resource_string :=
    "TCPIP0::" ++ ip_address ++ "::" ++ PyStr.str_int port ++ "::SOCKET" in
  Vis ResourceManager lift ;;;
  Vis (OpenResource resource_string timeout) lift ;;;
  Ret (Instance_ ip_address port timeout resource_string true true).

Definition close (self : instance) : prog unit :=
  (if has_inst self then Vis InstClose lift else Ret tt) ;;;
  (if has_rm self then Vis RmClose lift else Ret tt).

Definition __enter__ (self : instance) : prog instance := Ret self.

Definition __exit__ (self : instance) : prog unit := close self.

(** [with DP832(ip_address, port, timeout) as ps: body ps] *)
Definition with_DP832 {A : Type} (ip_address : string) (port timeout : Z)
  (body : instance -> prog A) : prog A :=
  manager <- __init__ ip_address port timeout ;;
  ps <- __enter__ manager ;;
  with_exit (body ps) (__exit__ manager).

End DP832.

(** Truth value of an [Optional[str]] in a condition: [None] and the empty
    string are false. *)
Definition truthy (o : option string) : bool :=
  match o with
  | Some s => negb (String.eqb s "")
  | None => false
  end.

(** ** The scanner: [discovery.py] *)

Module Discovery.

Definition get_local_network : prog string :=
  catch
    (local_ip <- Vis LocalAddress lift ;;
     Ret (PyStr.join "." (removelast (PyStr.split "." local_ip))))
    (fun _ => Ret "192.168.1").

Definition ping_ip (ip : string) : prog bool :=
  catch
    (returncode <- Vis (Ping ip) lift ;;
     Ret (Z.eqb returncode 0))
    (fun _ => Ret false).

Definition test_dp832_connection (ip : string) (port : Z) : prog (option string) :=
  catch
    (Vis ImportPyvisa lift ;;;
     let resource_string := "TCPIP0::" ++ ip ++ "::" ++ PyStr.str_int port ++ "::SOCKET" in
     Vis ResourceManager lift ;;;
     Vis (OpenResource resource_string 2000) lift ;;;
     id_response <- Vis (Query "*IDN?") lift ;;
     Vis InstClose lift ;;;
     Vis RmClose lift ;;;
     if PyStr.contains "RIGOL" (PyStr.upper id_response)
        && PyStr.contains "DP832" (PyStr.upper id_response)
     then Ret (Some (PyStr.strip id_response))
     else Ret None)
    (fun _ => Ret None).

(** The loop over [as_completed(futures)]: a host is kept when its ping
    succeeded.  The pool is linearised in completion order. *)
Fixpoint sweep (completed : list string) (responsive_ips : list string)
  : prog (list string) :=
  match completed with
  | [] => Ret responsive_ips
  | ip :: rest =>
      alive <- ping_ip ip ;;
      if alive then sweep rest (responsive_ips ++ [ip])%list
      else sweep rest responsive_ips
  end.

(** The loop over [responsive_ips]: a host is kept when the probe answers a
    non-empty identification. *)
Fixpoint probe (port : Z) (responsive_ips : list string)
  (dp832_devices : list (string * string)) : prog (list (string * string)) :=
  match responsive_ips with
  | [] => Ret dp832_devices
  | ip :: rest =>
      device_id <- test_dp832_connection ip port ;;
      match device_id with
      | Some d =>
          if truthy (Some d) then probe port rest (dp832_devices ++ [(ip, d)])%list
          else probe port rest dp832_devices
      | None => probe port rest dp832_devices
      end
  end.

Definition find_dp832_devices (network_base : option string) (port : Z)
  : prog (list (string * string)) :=
  network_base <- match network_base with
                  | None => get_local_network
                  | Some base => Ret base
                  end ;;
  let ips := map (fun i => network_base ++ "." ++ PyStr.str_int (Z.of_nat i))
                 (seq 1 254) in
  completed <- Vis (AsCompleted ips) Ret ;;
  responsive_ips <- sweep completed [] ;;
  match responsive_ips with
  | [] => Ret []
  | _ => probe port responsive_ips []
  end.


Definition test_ip (ip_address : string) (port : Z) : prog (option string) :=
  test_dp832_connection ip_address port.

End Discovery.

(** ** The stand-alone probe: [rigol_dp832/test_ip.py]

    [VISA_AVAILABLE] is the module's flag, set when the module is loaded by
    whether [import pyvisa] succeeded. *)

Module TestIp.

Definition test_ip (VISA_AVAILABLE : bool) (ip : string) (port : Z)
  : prog (option string) :=
  if negb VISA_AVAILABLE
  then Throw (Exn ImportError "PyVISA not available. Please install: pip install pyvisa")
  else
    catch_Exception
      (let resource_string := "TCPIP0::" ++ ip ++ "::" ++ PyStr.str_int port ++ "::SOCKET" in
       Vis ResourceManager lift ;;;
       Vis (OpenResource resource_string 2000) lift ;;;
       id_response <- Vis (Query "*IDN?") lift ;;
       Vis InstClose lift ;;;
       Vis RmClose lift ;;;
       let id_upper := PyStr.upper id_response in
       if PyStr.contains "RIGOL" id_upper
          && existsb (fun model => PyStr.contains model id_upper)
                     ["DP832"; "DP821"; "DP712"]
       then Ret (Some (PyStr.strip id_response))
       else Ret None)
      (fun _ => Ret None).

End TestIp.

(** ** The stand-alone scanner: [rigol_dp832/find_dp832.py]

    The module leaves the interpreter when pyvisa cannot be imported, so its
    functions only run with pyvisa loaded. *)

Module FindDp832.

Definition get_local_network : prog string :=
  catch
    (local_ip <- Vis LocalAddress lift ;;
     Ret (PyStr.join "." (removelast (PyStr.split "." local_ip))))
    (fun _ => Ret "192.168.1").

Definition ping_ip (ip : string) : prog bool :=
  catch
    (returncode <- Vis (Ping ip) lift ;;
     Ret (Z.eqb returncode 0))
    (fun _ => Ret false).

(** The answer is the identification or [False], here [None]. *)
Definition test_dp832_connection (ip : string) : prog (option string) :=
  catch
    (let resource_string := "TCPIP0::" ++ ip ++ "::5555::SOCKET" in
     Vis ResourceManager lift ;;;
     Vis (OpenResource resource_string 2000) lift ;;;
     id_response <- Vis (Query "*IDN?") lift ;;
     Vis InstClose lift ;;;
     Vis RmClose lift ;;;
     if PyStr.contains "RIGOL" (PyStr.upper id_response)
        && PyStr.contains "DP832" (PyStr.upper id_response)
     then Ret (Some (PyStr.strip id_response))
     else Ret None)
    (fun _ => Ret None).

Fixpoint sweep (completed : list string) (responsive_ips : list string)
  : prog (list string) :=
  match completed with
  | [] => Ret responsive_ips
  | ip :: rest =>
      alive <- ping_ip ip ;;
      if alive then sweep rest (responsive_ips ++ [ip])%list
      else sweep rest responsive_ips
  end.

(** The loop over [responsive_ips]: it returns at the first host whose probe
    answers a non-empty identification. *)
Fixpoint first_match (responsive_ips : list string) : prog (option (string * string)) :=
  match responsive_ips with
  | [] => Ret None
  | ip :: rest =>
      device_id <- test_dp832_connection ip ;;
      match device_id with
      | Some d => if truthy (Some d) then Ret (Some (ip, d)) else first_match rest
      | None => first_match rest
      end
  end.


End FindDp832.

(** ** The adapter's helpers: [mcp_rigol_dp832.py]

    [DEFAULT_IP] and [DEFAULT_PORT] are the module's configuration, read from
    the process environment when the module is loaded. *)

Module Mcp.

Definition get_connection_string (DEFAULT_IP : option string) (DEFAULT_PORT : Z)
  (ip : option string) (port : option Z) : prog string :=
  let ip := match ip with None => DEFAULT_IP | Some _ => ip end in
  let port := match port with None => DEFAULT_PORT | Some p => p end in
  match ip with
  | None =>
      Throw (Exn ValueError
               "No IP address configured. Set RIGOL_DP832_IP environment variable or provide IP parameter.")
  | Some ip => Ret ("TCPIP0::" ++ ip ++ "::" ++ PyStr.str_int port ++ "::SOCKET")
  end.


End Mcp.

(** * The vocabulary of the properties *)

(** A canned environment: every query is answered by [reply], every other
    session call succeeds, the local address is [192.168.1.23], no host
    answers a ping and the futures complete in submission order. *)
Definition answering (reply : string) : env :=
  fun _ e =>
    match e return resp e with
    | Query _ => Ok reply
    | Write _ => Ok tt
    | ImportPyvisa => Ok tt
    | ResourceManager => Ok tt
    | OpenResource _ _ => Ok tt
    | InstClose => Ok tt
    | RmClose => Ok tt
    | LocalAddress => Ok "192.168.1.23"
    | Ping _ => Ok 1%Z
    | AsCompleted ips => ips
    end.

(** [l[i]] as a partial function. *)
Definition item {A : Type} (l : list A) (i : Z) : option A :=
  let n := Z.of_nat (length l) in
  let j := if (i <? 0)%Z then (i + n)%Z else i in
  if (j <? 0)%Z then None else nth_error l (Z.to_nat j).

(** The channels of the instrument, and the error of the channel check. *)
Definition valid_channels : list Z := [1; 2; 3]%Z.

Definition channel_error (channel : Z) : exn :=
  Exn ValueError ("Channel must be 1, 2, or 3, got " ++ PyStr.str_int channel).

(** The method fails on the channel check and issues no call at all: the
    record of calls is the one it started from, whatever the environment. *)
Definition rejected_without_io {A : Type} (channel : Z) (p : prog A) : Prop :=
  forall (w : env) (history : list io),
    run w p history = (Raise (channel_error channel), history).

(** The regulation modes of the instrument. *)
Definition output_modes : list string := ["CV"; "CC"; "UR"].

(** The errors of list indexing and of [float]. *)
Definition index_error : exn := Exn IndexError "list index out of range".

Definition float_error (field : string) : exn :=
  Exn ValueError ("could not convert string to float: " ++ PyStr.repr field).

(** The message of [e] holds [text]. *)
Definition names (e : exn) (text : string) : bool :=
  PyStr.contains text (exn_msg e).

(** What the specification asks of a parse failure: an error that names the
    raw reply and the operation attempted. *)
Definition parse_error_naming {A : Type} (raw operation : string) (r : result A)
  : Prop :=
  exists e, r = Raise e /\ names e raw = true /\ names e operation = true.

(** [token] occurs in [text], letters compared without case. *)
Definition occurs_ignoring_case (token text : string) : Prop :=
  exists before middle after,
    text = before ++ middle ++ after /\ PyStr.upper middle = PyStr.upper token.

(** The reply holds the vendor token and one of the model tokens, its letters
    taken in upper case. *)
Definition identifies (models : list string) (reply : string) : bool :=
  PyStr.contains "RIGOL" (PyStr.upper reply)
  && existsb (fun model => PyStr.contains model (PyStr.upper reply)) models.

(** The VISA session both probes hold: open, ask for the identification,
    close.  [discovery.py] imports pyvisa inside the probe, [test_ip.py] when
    the module is loaded. *)
Definition session (import_first : bool) (ip : string) (port : Z) : prog string :=
  (if import_first then Vis ImportPyvisa lift else Ret tt) ;;;
  Vis ResourceManager lift ;;;
  Vis (OpenResource ("TCPIP0::" ++ ip ++ "::" ++ PyStr.str_int port ++ "::SOCKET") 2000) lift ;;;
  id_response <- Vis (Query "*IDN?") lift ;;
  Vis InstClose lift ;;;
  Vis RmClose lift ;;;
  Ret id_response.

(** What a probe answers on the outcome of its session. *)
Definition classified (models : list string) (outcome : result string * list io)
  : result (option string) * list io :=
  match outcome with
  | (Ok reply, h) =>
      (Ok (if identifies models reply then Some (PyStr.strip reply) else None), h)
  | (Raise _, h) => (Ok None, h)
  end.

(** What a probe under [except Exception] answers on the outcome of its
    session: an exception outside [Exception] is the probe's own. *)
Definition classified_Exception (models : list string)
  (outcome : result string * list io) : result (option string) * list io :=
  match outcome with
  | (Ok reply, h) =>
      (Ok (if identifies models reply then Some (PyStr.strip reply) else None), h)
  | (Raise e, h) =>
      if derives_from_Exception (exn_cls e) then (Ok None, h) else (Raise e, h)
  end.

(** An interrupt from the keyboard, which is no [Exception]. *)
Definition keyboard_interrupt : exn := Exn (OtherException "KeyboardInterrupt") "".

(** An instrument whose identification query is interrupted from the
    keyboard. *)
Definition interrupted : env :=
  fun history e =>
    match e return resp e with
    | Query _ => Raise keyboard_interrupt
    | Write _ => Ok tt
    | ImportPyvisa => Ok tt
    | ResourceManager => Ok tt
    | OpenResource _ _ => Ok tt
    | InstClose => Ok tt
    | RmClose => Ok tt
    | LocalAddress => Ok "192.168.1.23"
    | Ping _ => Ok 1%Z
    | AsCompleted ips => ips
    end.

(** Two identification replies: a DP832 and a DP821A. *)
Definition matching_id : string := "RIGOL TECHNOLOGIES,DP832,DP8C000000001,00.01.14".

Definition dp821_id : string := "RIGOL TECHNOLOGIES,DP821A,DP8E000000001,00.01.14".

(** No host answers the ping: the subprocess fails or ends on a non-zero
    return code, for every address and at every moment. *)
Definition no_host_responds (w : env) : Prop :=
  forall history ip, w history (Ping ip) <> Ok 0%Z.

(** The program makes no call: it is a value or an exception. *)
Definition pure {A : Type} (p : prog A) : Prop :=
  match p with
  | Vis _ _ => False
  | _ => True
  end.

(** The method makes the one query [cmd] and no other call, whatever it is
    answered; an exception of the query is the exception of the method. *)
Definition one_query {A : Type} (p : prog A) (cmd : string) : Prop :=
  forall (w : env) (history : list io),
    snd (run w p history) = (history ++ [Query cmd])%list
    /\ forall e, w history (Query cmd) = Raise e -> fst (run w p history) = Raise e.

(** The method makes the one write [cmd] and no other call, and ends as the
    write ended. *)
Definition one_write (p : prog unit) (cmd : string) : Prop :=
  forall (w : env) (history : list io),
    run w p history = (w history (Write cmd), (history ++ [Write cmd])%list).

(** Every character of [s] is a blank of [strip]. *)
Fixpoint all_space (s : string) : bool :=
  match s with
  | EmptyString => true
  | String c s' => PyStr.isspace c && all_space s'
  end.

(** How many times [c] occurs in [s]. *)
Fixpoint count_char (c : ascii) (s : string) : nat :=
  match s with
  | EmptyString => 0
  | String d s' => (if Ascii.eqb d c then 1 else 0) + count_char c s'
  end.

(** [l] is [l'] with some elements left out. *)
Inductive subsequence {A : Type} : list A -> list A -> Prop :=
| subsequence_nil : subsequence [] []
| subsequence_skip x l l' : subsequence l l' -> subsequence l (x :: l')
| subsequence_keep x l l' : subsequence l l' -> subsequence (x :: l) (x :: l').

(** The addresses the scan submits to the pool: [base.1] to [base.254]. *)
Definition swept (base : string) : list string :=
  map (fun i => base ++ "." ++ PyStr.str_int (Z.of_nat i)) (seq 1 254).

(** The pool hands back every future once: the completion order is a
    permutation of the addresses submitted. *)
Definition completes_each_once (w : env) : Prop :=
  forall history ips, Permutation (w history (AsCompleted ips)) ips.

(** Whether a ping answered: return code 0. *)
Definition ping_succeeded (r : result Z) : bool :=
  match r with
  | Ok returncode => Z.eqb returncode 0
  | Raise _ => false
  end.

(** A device as the scan reports it: a non-empty identification, the
    stripped text of a reply that holds RIGOL and DP832. *)
Definition reported_device (device : string * string) : Prop :=
  snd device <> ""
  /\ exists reply,
       identifies ["DP832"] reply = true /\ snd device = PyStr.strip reply.

(** The method answers the same, a value or an exception, when its query is
    answered by a reply and when it is answered by the same reply between
    blanks. *)
Definition unchanged_by_blanks {A : Type} (m : prog A) (cmd : string) : Prop :=
  forall (w1 w2 : env) (h1 h2 : list io) (before reply after : string),
    all_space before = true -> all_space after = true ->
    w1 h1 (Query cmd) = Ok (before ++ reply ++ after) ->
    w2 h2 (Query cmd) = Ok reply ->
    fst (run w1 m h1) = fst (run w2 m h2).

Definition crlf : string := String (ascii_of_nat 13) (String (ascii_of_nat 10) "").

(** The fan-out [p] of [method] over the channels 1, 2, 3 reads them in this
    order, each by its one query [cmd], and stops at the first reading that
    fails: it fails with the exception of that reading, having asked this
    query and none after it; when the three readings answer, it answers the
    dict of the three values under the keys 1, 2, 3 in this order. *)
Definition fans_out {V : Type} (method : Z -> prog V) (cmd : Z -> string)
  (p : prog (list (Z * V))) : Prop :=
  forall (w : env) (history : list io),
    let h1 := (history ++ [Query (cmd 1%Z)])%list in
    let h2 := (h1 ++ [Query (cmd 2%Z)])%list in
    let h3 := (h2 ++ [Query (cmd 3%Z)])%list in
    run w p history =
    match fst (run w (method 1%Z) history) with
    | Raise e => (Raise e, h1)
    | Ok v1 =>
        match fst (run w (method 2%Z) h1) with
        | Raise e => (Raise e, h2)
        | Ok v2 =>
            match fst (run w (method 3%Z) h2) with
            | Raise e => (Raise e, h3)
            | Ok v3 => (Ok [(1%Z, v1); (2%Z, v2); (3%Z, v3)], h3)
            end
        end
    end.

Definition resource_of (ip : string) (port : Z) : string :=
  "TCPIP0::" ++ ip ++ "::" ++ PyStr.str_int port ++ "::SOCKET".

(** The call, when it opens a resource, opens the one of an allowed host, on
    [port] and with the probe's timeout of 2000 ms; it is no write. *)
Definition opens_only (allowed : string -> Prop) (port : Z) (e : io) : Prop :=
  match e with
  | OpenResource resource timeout =>
      timeout = 2000%Z /\ exists ip, allowed ip /\ resource = resource_of ip port
  | Write _ => False
  | _ => True
  end.

(** The text has no blank at either end. *)
Definition trimmed (s : string) : Prop :=
  PyStr.lstrip s = s /\ PyStr.rstrip s = s.

(** The float is printed as a text that [float] reads back as the same
    float, that holds no comma, is not empty and has no blank at either
    end: what holds of Python's floats other than NaN. *)
Definition reads_back {F : PyFloat} (x : pyfloat) : Prop :=
  float_of_string (string_of_float x) = Some x
  /\ count_char "," (string_of_float x) = 0
  /\ string_of_float x <> ""
  /\ trimmed (string_of_float x).

(** The instrument takes the write [write_cmd] and answers the query
    [query_cmd] that follows it by [reply]. *)
Definition echoes (w : env) (history : list io) (write_cmd query_cmd reply : string)
  : Prop :=
  w history (Write write_cmd) = Ok tt
  /\ w (history ++ [Write write_cmd])%list (Query query_cmd) = Ok reply.

(** ** Environments to run the scan on *)

Definition visa_error : exn := Exn VisaIOError "VI_ERROR_TMO".

(** The resource opened last. *)
Fixpoint last_opened (history : list io) : option string :=
  match history with
  | [] => None
  | e :: rest =>
      match last_opened rest with
      | Some resource => Some resource
      | None =>
          match e with
          | OpenResource resource _ => Some resource
          | _ => None
          end
      end
  end.

(** A small network: a host answers the ping when [alive] says so, the
    identification query is answered by [idn] on the resource opened last,
    every other session call succeeds and the futures complete in submission
    order. *)
Definition subnet (alive : string -> bool) (idn : string -> result string) : env :=
  fun history e =>
    match e return resp e with
    | Query _ =>
        match last_opened history with
        | Some resource => idn resource
        | None => Raise visa_error
        end
    | Write _ => Ok tt
    | ImportPyvisa => Ok tt
    | ResourceManager => Ok tt
    | OpenResource _ _ => Ok tt
    | InstClose => Ok tt
    | RmClose => Ok tt
    | LocalAddress => Ok "10.0.0.7"
    | Ping ip => Ok (if alive ip then 0%Z else 1%Z)
    | AsCompleted ips => ips
    end.

(** Hosts .10 and .20 answer the ping; .20 is a DP832, .10 something else. *)
Definition lab : env :=
  subnet (fun ip => String.eqb ip "10.0.0.10" || String.eqb ip "10.0.0.20")
    (fun resource =>
       if String.eqb resource "TCPIP0::10.0.0.20::5555::SOCKET" then Ok matching_id
       else if String.eqb resource "TCPIP0::10.0.0.10::5555::SOCKET" then Ok "ACME,PSU-1,1,1"
       else Raise visa_error).

(** [w], but with the calls [broken] picks raising a VISA error. *)
Definition breaking (broken : io -> bool) (w : env) : env :=
  fun history e =>
    if broken e then
      match e return resp e with
      | Query _ => Raise visa_error
      | Write _ => Raise visa_error
      | ImportPyvisa => Raise visa_error
      | ResourceManager => Raise visa_error
      | OpenResource _ _ => Raise visa_error
      | InstClose => Raise visa_error
      | RmClose => Raise visa_error
      | LocalAddress => Raise visa_error
      | Ping _ => Raise visa_error
      | AsCompleted ips => ips
      end
    else w history e.

Definition is_inst_close (e : io) : bool :=
  match e with InstClose => true | _ => false end.

Definition is_open_resource (e : io) : bool :=
  match e with OpenResource _ _ => true | _ => false end.

(** * Properties *)

(** ** The embedding on sample inputs *)

Example strip_reply :
  PyStr.strip (String (ascii_of_nat 9) " ON " ++ String (ascii_of_nat 13) (String (ascii_of_nat 10) ""))
  = "ON".
Proof. reflexivity. Qed.

Example split_keeps_empty_fields :
  PyStr.split "," "a,,b," = ["a"; ""; "b"; ""] /\ PyStr.split "," "" = [""].
Proof. split; reflexivity. Qed.

Example upper_letters_only : PyStr.upper "Rigol dp832a {z}" = "RIGOL DP832A {Z}".
Proof. reflexivity. Qed.

Example repr_quotes :
  PyStr.repr "abc" = String PyStr.squote ("abc" ++ String PyStr.squote "")
  /\ PyStr.repr "it's" = String PyStr.dquote ("it's" ++ String PyStr.dquote "").
Proof. split; reflexivity. Qed.

Example negative_index :
  item ["a"; "b"; "c"] (-1) = Some "c" /\ item ["a"; "b"; "c"] (-4) = None
  /\ item ["a"; "b"; "c"] 3 = None.
Proof. repeat split; reflexivity. Qed.

Example float_accepts :
  map DecimalFloat.of_string [" 5.002 "; "1e3"; ".5"; "1_000."; "-Inf"]
  = [Some (DecimalFloat.Finite false 5002 (-3)); Some (DecimalFloat.Finite false 1 3);
     Some (DecimalFloat.Finite false 5 (-1)); Some (DecimalFloat.Finite false 1 3);
     Some (DecimalFloat.Infinity true)].
Proof. reflexivity. Qed.

Example float_refuses :
  map DecimalFloat.of_string ["abc"; ""; "."; "1e"; "1__0"; "1 2"; "0x10"; "1,5"]
  = [None; None; None; None; None; None; None; None].
Proof. reflexivity. Qed.

Example float_rendering :
  map DecimalFloat.to_string
    [DecimalFloat.Finite false 5 0; DecimalFloat.Finite false 15 (-1);
     DecimalFloat.Finite false 1 (-5); DecimalFloat.Finite true 0 0]
  = ["5.0"; "1.5"; "1e-05"; "-0.0"].
Proof. reflexivity. Qed.

Example set_channel_settings_command :
  run (answering "") (DP832.set_channel_settings (F := DecimalFloat.decimal_float) 1
                        (DecimalFloat.Finite false 5 0) (DecimalFloat.Finite false 1 0)) []
  = (Ok tt, [Write ":APPL CH1,5.0,1.0"]).
Proof. reflexivity. Qed.

Example scan_network_base :
  fst (run (answering "") Discovery.get_local_network []) = Ok "192.168.1".
Proof. reflexivity. Qed.

(** ** Running programs *)

Lemma bind_ret_l {A B : Type} (a : A) (f : A -> prog B) : bind (Ret a) f = f a.
Proof. reflexivity. Qed.

Lemma bind_throw_l {A B : Type} (e : exn) (f : A -> prog B) :
  bind (Throw e) f = Throw e.
Proof. reflexivity. Qed.

Lemma run_bind {A B : Type} (w : env) (p : prog A) (f : A -> prog B) :
  forall history,
    run w (bind p f) history =
    match run w p history with
    | (Ok a, h') => run w (f a) h'
    | (Raise e, h') => (Raise e, h')
    end.
Proof.
  induction p as [a | e | e k IH]; intros history; simpl.
  - reflexivity.
  - reflexivity.
  - apply IH.
Qed.

Lemma run_catch {A : Type} (w : env) (p : prog A) (handler : exn -> prog A) :
  forall history,
    run w (catch p handler) history =
    match run w p history with
    | (Ok a, h') => (Ok a, h')
    | (Raise e, h') => run w (handler e) h'
    end.
Proof.
  induction p as [a | e | e k IH]; intros history; simpl.
  - reflexivity.
  - reflexivity.
  - apply IH.
Qed.


Lemma run_lift {A : Type} (w : env) (r : result A) history :
  run w (lift r) history = (r, history).
Proof. destruct r; reflexivity. Qed.

(** A call on the session, then the rest of the method. *)
Lemma run_query {A : Type} (w : env) cmd (k : string -> prog A) history :
  run w (bind (DP832.query cmd) k) history =
  match w history (Query cmd) with
  | Ok reply => run w (k reply) (history ++ [Query cmd])%list
  | Raise e => (Raise e, (history ++ [Query cmd])%list)
  end.
Proof.
  unfold DP832.query. simpl.
  destruct (w history (Query cmd)) as [reply | e]; reflexivity.
Qed.

(** ** Indexing *)

Lemma getitem_item {A : Type} (l : list A) (i : Z) :
  getitem l i =
  match item l i with
  | Some a => Ret a
  | None => Throw (Exn IndexError "list index out of range")
  end.
Proof.
  unfold getitem, item.
  destruct (if (i <? 0)%Z then (i + Z.of_nat (length l))%Z else i) as [| j | j];
    simpl; try reflexivity;
    match goal with |- context [nth_error l ?n] => destruct (nth_error l n) end;
    reflexivity.
Qed.

Lemma item_nonneg {A : Type} (l : list A) (n : nat) :
  item l (Z.of_nat n) = nth_error l n.
Proof.
  unfold item.
  destruct (Z.ltb_spec (Z.of_nat n) 0) as [H | H]; [lia |].
  destruct (Z.ltb_spec (Z.of_nat n) 0) as [H' | H']; [lia |].
  now rewrite Nat2Z.id.
Qed.

Lemma item_short {A : Type} (l : list A) (n : nat) :
  length l <= n -> item l (Z.of_nat n) = None.
Proof. intros H. rewrite item_nonneg. now apply nth_error_None. Qed.

Lemma item_from_end {A : Type} (pre post : list A) (a : A) :
  item (pre ++ a :: post)%list (- Z.of_nat (S (length post))) = Some a.
Proof.
  unfold item. rewrite length_app. simpl length.
  destruct (Z.ltb_spec (- Z.of_nat (S (length post))) 0) as [H | H]; [| lia].
  replace (- Z.of_nat (S (length post)) + Z.of_nat (length pre + S (length post)))%Z
    with (Z.of_nat (length pre)) by lia.
  destruct (Z.ltb_spec (Z.of_nat (length pre)) 0) as [H' | H']; [lia |].
  rewrite Nat2Z.id, nth_error_app2 by lia.
  now rewrite Nat.sub_diag.
Qed.

Lemma item_last_but_one {A : Type} (before : list A) (a b : A) :
  item (before ++ [a; b])%list (-2) = Some a.
Proof. exact (item_from_end before [b] a). Qed.

Lemma item_last {A : Type} (before : list A) (a b : A) :
  item (before ++ [a; b])%list (-1) = Some b.
Proof.
  replace (before ++ [a; b])%list with ((before ++ [a]) ++ [b])%list
    by (rewrite <- app_assoc; reflexivity).
  exact (item_from_end (before ++ [a]) [] b).
Qed.

Lemma split_nonempty (sep : ascii) (s : string) : PyStr.split sep s <> [].
Proof.
  destruct s as [| c s]; simpl; [discriminate |].
  destruct (Ascii.eqb c sep); [discriminate |].
  destruct (PyStr.split sep s); discriminate.
Qed.

(** ** The channel check *)

Lemma existsb_eqb_In (channel : Z) (l : list Z) :
  existsb (Z.eqb channel) l = true <-> In channel l.
Proof.
  rewrite existsb_exists. split.
  - intros [x [Hin Heq]]. apply Z.eqb_eq in Heq. now subst.
  - intros Hin. exists channel. split; [assumption | apply Z.eqb_refl].
Qed.

Lemma validate_ok (channel : Z) :
  In channel valid_channels -> DP832._validate_channel channel = Ret tt.
Proof.
  intros H. unfold DP832._validate_channel.
  apply existsb_eqb_In in H. unfold valid_channels in H. now rewrite H.
Qed.

Lemma validate_bad (channel : Z) :
  ~ In channel valid_channels ->
  DP832._validate_channel channel = Throw (channel_error channel).
Proof.
  intros H. unfold DP832._validate_channel.
  destruct (existsb (Z.eqb channel) [1; 2; 3]%Z) eqn:E.
  - exfalso. apply H. now apply existsb_eqb_In.
  - reflexivity.
Qed.

Lemma guarded_rejected {A : Type} (channel : Z) (body : unit -> prog A) :
  ~ In channel valid_channels ->
  rejected_without_io channel (bind (DP832._validate_channel channel) body).
Proof.
  intros H w history. rewrite (validate_bad channel H). reflexivity.
Qed.

Ltac reject_channel :=
  intros; apply guarded_rejected; assumption.

(** C1. For a channel id outside 1, 2, 3, every channel-scoped method of the
    client raises the ValueError of the channel check and issues no query
    and no write, under every environment. *)
Theorem invalid_channel_rejected_without_io
  (F : PyFloat) (channel : Z) (H : ~ In channel valid_channels) :
  rejected_without_io channel (DP832.get_output_state channel)
  /\ (forall state, rejected_without_io channel (DP832.set_output_state channel state))
  /\ rejected_without_io channel (DP832.get_channel_settings channel)
  /\ (forall voltage current,
        rejected_without_io channel (DP832.set_channel_settings channel voltage current))
  /\ rejected_without_io channel (DP832.measure_voltage channel)
  /\ rejected_without_io channel (DP832.measure_current channel)
  /\ rejected_without_io channel (DP832.measure_power channel)
  /\ rejected_without_io channel (DP832.measure_all channel)
  /\ rejected_without_io channel (DP832.get_output_mode channel)
  /\ rejected_without_io channel (DP832.get_ocp_enabled channel)
  /\ (forall enabled, rejected_without_io channel (DP832.set_ocp_enabled channel enabled))
  /\ rejected_without_io channel (DP832.get_ocp_value channel)
  /\ (forall current, rejected_without_io channel (DP832.set_ocp_value channel current))
  /\ rejected_without_io channel (DP832.get_ovp_enabled channel)
  /\ (forall enabled, rejected_without_io channel (DP832.set_ovp_enabled channel enabled))
  /\ rejected_without_io channel (DP832.get_ovp_value channel)
  /\ (forall voltage, rejected_without_io channel (DP832.set_ovp_value channel voltage))
  /\ rejected_without_io channel (DP832.get_ocp_alarm channel)
  /\ rejected_without_io channel (DP832.clear_ocp_alarm channel)
  /\ rejected_without_io channel (DP832.get_ovp_alarm channel)
  /\ rejected_without_io channel (DP832.clear_ovp_alarm channel).
Proof.
  repeat match goal with |- _ /\ _ => split end; reject_channel.
Qed.

Lemma invalid_channel_rejected_without_io_witness :
  ~ In 4%Z valid_channels
  /\ run (answering "ON") (DP832.get_output_state 4) [] =
     (Raise (Exn ValueError "Channel must be 1, 2, or 3, got 4"), [])
  /\ run (answering "ON")
       (DP832.set_channel_settings (F := DecimalFloat.decimal_float) 4
          (DecimalFloat.Finite false 5 0) (DecimalFloat.Finite false 1 0)) [] =
     (Raise (Exn ValueError "Channel must be 1, 2, or 3, got 4"), []).
Proof.
  assert (H : ~ In 4%Z valid_channels).
  { unfold valid_channels. simpl. intros [E | [E | [E | []]]]; discriminate E. }
  destruct (invalid_channel_rejected_without_io DecimalFloat.decimal_float 4 H)
    as (Hget & _ & _ & Hset & _).
  split; [exact H |].
  split; [apply Hget | apply Hset].
Defined.

(** ** Replies read as tokens *)

Ltac run_method H :=
  rewrite validate_ok by assumption;
  rewrite bind_ret_l, run_query, H.

(** C4. On a valid channel, [get_ocp_alarm] answers true exactly when the
    stripped reply is the token YES, and [get_ovp_alarm] exactly when it is
    the token ON. *)
Theorem alarm_sentinel_tokens (channel : Z) (H : In channel valid_channels) :
  (forall (w : env) history reply,
      w history (Query (":OUTP:OCP:ALAR? " ++ DP832.CH channel)) = Ok reply ->
      exists b,
        run w (DP832.get_ocp_alarm channel) history =
        (Ok b, (history ++ [Query (":OUTP:OCP:ALAR? " ++ DP832.CH channel)])%list)
        /\ (b = true <-> PyStr.strip reply = "YES"))
  /\ (forall (w : env) history reply,
      w history (Query (":OUTP:OVP:ALAR? " ++ DP832.CH channel)) = Ok reply ->
      exists b,
        run w (DP832.get_ovp_alarm channel) history =
        (Ok b, (history ++ [Query (":OUTP:OVP:ALAR? " ++ DP832.CH channel)])%list)
        /\ (b = true <-> PyStr.strip reply = "ON")).
Proof.
  split; intros w history reply Hreply.
  - exists (String.eqb (PyStr.strip reply) "YES"). split.
    + unfold DP832.get_ocp_alarm. run_method Hreply. reflexivity.
    + apply String.eqb_eq.
  - exists (String.eqb (PyStr.strip reply) "ON"). split.
    + unfold DP832.get_ovp_alarm. run_method Hreply. reflexivity.
    + apply String.eqb_eq.
Qed.

Lemma one_is_valid : In 1%Z valid_channels.
Proof. unfold valid_channels. simpl. left. reflexivity. Defined.

Lemma alarm_sentinel_tokens_witness :
  In 1%Z valid_channels
  /\ fst (run (answering "YES") (DP832.get_ocp_alarm 1) []) = Ok true
  /\ fst (run (answering "YES") (DP832.get_ovp_alarm 1) []) = Ok false
  /\ fst (run (answering "ON") (DP832.get_ovp_alarm 1) []) = Ok true.
Proof.
  destruct (alarm_sentinel_tokens 1 one_is_valid) as [Hocp Hovp].
  split; [exact one_is_valid |].
  split; [| split].
  - destruct (Hocp (answering "YES") [] "YES" eq_refl) as [b [Hrun Hb]].
    rewrite Hrun. simpl. f_equal. apply Hb. reflexivity.
  - destruct (Hovp (answering "YES") [] "YES" eq_refl) as [b [Hrun Hb]].
    rewrite Hrun. simpl. f_equal.
    destruct b; [| reflexivity].
    destruct Hb as [Hb _]. specialize (Hb eq_refl). discriminate Hb.
  - destruct (Hovp (answering "ON") [] "ON" eq_refl) as [b [Hrun Hb]].
    rewrite Hrun. simpl. f_equal. apply Hb. reflexivity.
Defined.

(** C5. On a valid channel, [get_output_state] answers true exactly when the
    stripped reply is the literal ON; OFF, like any other text, gives
    false. *)
Theorem output_state_literal_on
  (channel : Z) (w : env) (history : list io) (reply : string)
  (H : In channel valid_channels)
  (Hreply : w history (Query (":OUTP:STAT? " ++ DP832.CH channel)) = Ok reply) :
  exists b,
    run w (DP832.get_output_state channel) history =
    (Ok b, (history ++ [Query (":OUTP:STAT? " ++ DP832.CH channel)])%list)
    /\ (b = true <-> PyStr.strip reply = "ON")
    /\ (PyStr.strip reply = "OFF" -> b = false)
    /\ (PyStr.strip reply <> "ON" -> b = false).
Proof.
  exists (String.eqb (PyStr.strip reply) "ON"). split; [| split; [| split]].
  - unfold DP832.get_output_state. run_method Hreply. reflexivity.
  - apply String.eqb_eq.
  - intros E. rewrite E. reflexivity.
  - intros E. now apply String.eqb_neq.
Qed.

Lemma output_state_literal_on_witness :
  In 1%Z valid_channels
  /\ fst (run (answering "on") (DP832.get_output_state 1) []) = Ok false.
Proof.
  split; [exact one_is_valid |].
  destruct (output_state_literal_on 1 (answering "on") [] "on" one_is_valid eq_refl)
    as [b [Hrun [_ [_ Hother]]]].
  rewrite Hrun. simpl. f_equal. apply Hother. discriminate.
Defined.

(** C6, as stated, fails: the reply XYZ on channel 1 comes back as XYZ, which
    is none of CV, CC, UR. *)
Lemma output_mode_outside_the_three :
  fst (run (answering "XYZ") (DP832.get_output_mode 1) []) = Ok "XYZ"
  /\ ~ In "XYZ" output_modes.
Proof.
  split; [reflexivity |].
  unfold output_modes. simpl. intros [E | [E | [E | []]]]; discriminate E.
Qed.

(** C6, amended. On a valid channel, [get_output_mode] hands back the
    stripped reply unchanged; it is one of CV, CC, UR exactly when the
    stripped reply is. *)
Theorem output_mode_is_stripped_reply
  (channel : Z) (w : env) (history : list io) (reply : string)
  (H : In channel valid_channels)
  (Hreply : w history (Query (":OUTP:MODE? " ++ DP832.CH channel)) = Ok reply) :
  exists mode,
    run w (DP832.get_output_mode channel) history =
    (Ok mode, (history ++ [Query (":OUTP:MODE? " ++ DP832.CH channel)])%list)
    /\ mode = PyStr.strip reply
    /\ (In mode output_modes <-> In (PyStr.strip reply) output_modes).
Proof.
  exists (PyStr.strip reply). split; [| split].
  - unfold DP832.get_output_mode. run_method Hreply. reflexivity.
  - reflexivity.
  - reflexivity.
Qed.

Lemma output_mode_is_stripped_reply_witness :
  In 2%Z valid_channels
  /\ fst (run (answering " CC ") (DP832.get_output_mode 2) []) = Ok "CC".
Proof.
  assert (H : In 2%Z valid_channels).
  { unfold valid_channels. simpl. right. left. reflexivity. }
  split; [exact H |].
  destruct (output_mode_is_stripped_reply 2 (answering " CC ") [] " CC " H eq_refl)
    as [mode [Hrun [Hmode _]]].
  rewrite Hrun, Hmode. reflexivity.
Defined.

(** ** Replies read as numbers *)

Section FloatReplies.
Context {F : PyFloat}.

Lemma float_some (field : string) (x : pyfloat) :
  float_of_string field = Some x -> float field = Ret x.
Proof. intros H. unfold float. now rewrite H. Qed.

Lemma float_none (field : string) :
  float_of_string field = None -> float field = Throw (float_error field).
Proof. intros H. unfold float. now rewrite H. Qed.

(** One field of the reply read as a float, then the rest of the method. *)
Lemma run_field {A : Type} (w : env) (fields : list string) (i : Z)
  (k : pyfloat -> prog A) history :
  run w (bind (getitem fields i) (fun field => bind (float field) k)) history =
  match item fields i with
  | None => (Raise index_error, history)
  | Some field =>
      match float_of_string field with
      | None => (Raise (float_error field), history)
      | Some x => run w (k x) history
      end
  end.
Proof.
  rewrite getitem_item. destruct (item fields i) as [field |]; [| reflexivity].
  rewrite bind_ret_l. unfold float.
  destruct (float_of_string field); reflexivity.
Qed.

Lemma item_In {A : Type} (l : list A) (i : Z) (a : A) :
  item l i = Some a -> In a l.
Proof.
  unfold item.
  destruct ((if (i <? 0)%Z then (i + Z.of_nat (length l))%Z else i) <? 0)%Z;
    [discriminate |].
  apply nth_error_In.
Qed.

End FloatReplies.

(** C7. On a valid channel, when the stripped reply splits on commas into
    fields ending with two that read as floats, [get_channel_settings]
    answers the voltage read from the last but one and the current read from
    the last, whatever fields come before. *)
Theorem channel_settings_last_two_fields
  (F : PyFloat) (channel : Z) (w : env) (history : list io) (reply : string)
  (before : list string) (field_v field_i : string) (v i : pyfloat)
  (H : In channel valid_channels)
  (Hreply : w history (Query (":APPL? " ++ DP832.CH channel)) = Ok reply)
  (Hfields : PyStr.split "," (PyStr.strip reply) = (before ++ [field_v; field_i])%list)
  (Hv : float_of_string field_v = Some v)
  (Hi : float_of_string field_i = Some i) :
  run w (DP832.get_channel_settings channel) history =
  (Ok [("voltage", v); ("current", i)],
   (history ++ [Query (":APPL? " ++ DP832.CH channel)])%list).
Proof.
  unfold DP832.get_channel_settings. run_method Hreply.
  rewrite Hfields, run_field, item_last_but_one, Hv.
  rewrite run_field, item_last, Hi. reflexivity.
Qed.

Lemma channel_settings_last_two_fields_witness :
  In 1%Z valid_channels
  /\ run (answering "CH1:30V/3A,5.000,1.0000")
       (DP832.get_channel_settings (F := DecimalFloat.decimal_float) 1) [] =
     (Ok [("voltage", DecimalFloat.Finite false 5 0);
          ("current", DecimalFloat.Finite false 1 0)],
      [Query ":APPL? CH1"]).
Proof.
  split; [exact one_is_valid |].
  exact (channel_settings_last_two_fields DecimalFloat.decimal_float 1
           (answering "CH1:30V/3A,5.000,1.0000") [] "CH1:30V/3A,5.000,1.0000"
           ["CH1:30V/3A"] "5.000" "1.0000"
           (DecimalFloat.Finite false 5 0) (DecimalFloat.Finite false 1 0)
           one_is_valid eq_refl eq_refl eq_refl eq_refl).
Defined.

(** C8. On a valid channel, when the stripped reply splits on commas into
    three fields, [measure_all] answers the three floats read from them as
    voltage, current and power, and [measure_power] the float read from the
    third. *)
Theorem measure_all_three_fields
  (F : PyFloat) (channel : Z) (w : env) (history : list io) (reply : string)
  (field_v field_i field_p : string)
  (H : In channel valid_channels)
  (Hreply : w history (Query (":MEAS:ALL? " ++ DP832.CH channel)) = Ok reply)
  (Hfields : PyStr.split "," (PyStr.strip reply) = [field_v; field_i; field_p]) :
  (forall v i p,
      float_of_string field_v = Some v ->
      float_of_string field_i = Some i ->
      float_of_string field_p = Some p ->
      run w (DP832.measure_all channel) history =
      (Ok [("voltage", v); ("current", i); ("power", p)],
       (history ++ [Query (":MEAS:ALL? " ++ DP832.CH channel)])%list))
  /\ (forall p,
      float_of_string field_p = Some p ->
      run w (DP832.measure_power channel) history =
      (Ok p, (history ++ [Query (":MEAS:ALL? " ++ DP832.CH channel)])%list)).
Proof.
  split.
  - intros v i p Hv Hi Hp.
    unfold DP832.measure_all. run_method Hreply.
    rewrite Hfields, run_field.
    change (item [field_v; field_i; field_p] 0) with (Some field_v); cbv beta iota.
    rewrite Hv, run_field.
    change (item [field_v; field_i; field_p] 1) with (Some field_i); cbv beta iota.
    rewrite Hi, run_field.
    change (item [field_v; field_i; field_p] 2) with (Some field_p); cbv beta iota.
    rewrite Hp. reflexivity.
  - intros p Hp.
    unfold DP832.measure_power. run_method Hreply.
    rewrite Hfields, getitem_item.
    change (item [field_v; field_i; field_p] 2) with (Some field_p); cbv beta iota.
    rewrite bind_ret_l, (float_some _ _ Hp). reflexivity.
Qed.

Lemma measure_all_three_fields_witness :
  In 1%Z valid_channels
  /\ run (answering "5.002,1.001,5.007")
       (DP832.measure_all (F := DecimalFloat.decimal_float) 1) [] =
     (Ok [("voltage", DecimalFloat.Finite false 5002 (-3));
          ("current", DecimalFloat.Finite false 1001 (-3));
          ("power", DecimalFloat.Finite false 5007 (-3))],
      [Query ":MEAS:ALL? CH1"])
  /\ run (answering "5.002,1.001,5.007")
       (DP832.measure_power (F := DecimalFloat.decimal_float) 1) [] =
     (Ok (DecimalFloat.Finite false 5007 (-3)), [Query ":MEAS:ALL? CH1"]).
Proof.
  split; [exact one_is_valid |].
  destruct (measure_all_three_fields DecimalFloat.decimal_float 1
              (answering "5.002,1.001,5.007") [] "5.002,1.001,5.007"
              "5.002" "1.001" "5.007" one_is_valid eq_refl eq_refl)
    as [Hall Hpower].
  split.
  - exact (Hall _ _ _ eq_refl eq_refl eq_refl).
  - exact (Hpower _ eq_refl).
Defined.

(** ** Malformed replies *)

(** C3, as stated, fails: on the one-field reply RIGOL, [id] raises the
    IndexError of list indexing, whose message names neither the reply nor
    the operation; on the reply abc, [measure_voltage] raises the ValueError
    of [float], which names the text but not the operation. *)
Lemma parse_failure_is_not_a_named_parse_error :
  fst (run (answering "RIGOL") DP832.id []) =
    Raise (Exn IndexError "list index out of range")
  /\ ~ parse_error_naming "RIGOL" "id" (fst (run (answering "RIGOL") DP832.id []))
  /\ fst (run (answering "abc")
            (DP832.measure_voltage (F := DecimalFloat.decimal_float) 1) []) =
     Raise (Exn ValueError "could not convert string to float: 'abc'")
  /\ ~ parse_error_naming "abc" "measure_voltage"
         (fst (run (answering "abc")
                 (DP832.measure_voltage (F := DecimalFloat.decimal_float) 1) [])).
Proof.
  split; [reflexivity |]. split; [| split; [reflexivity |]].
  - intros [e [He [Hraw _]]]. inversion He; subst e. discriminate Hraw.
  - intros [e [He [_ Hop]]]. inversion He; subst e. discriminate Hop.
Qed.

Lemma item_before_two {A : Type} (l : list A) :
  length l < 2 -> item l (-2) = None.
Proof.
  destruct l as [| a [| b l]]; simpl; intros H; try lia; reflexivity.
Qed.

(** C3, amended. A reply that is malformed in a field the method reads makes
    the method fail, never answer a value, and the failure is the built-in
    error of the first step that fails, the fields being read from left to
    right: the IndexError of list indexing when the field is missing, the
    ValueError of [float], carrying the text of that field, when the field
    is there and does not read as a float.  [id] reads four fields;
    [measure_voltage], [measure_current], [get_ocp_value] and
    [get_ovp_value] the whole stripped reply; [get_channel_settings] the last
    but one field and then the last; [measure_power] the third;
    [measure_all] the first, the second and the third.  A field the method
    does not read is not looked at, and no error names the operation. *)
Theorem malformed_reply_raises_builtin_error
  (F : PyFloat) (channel : Z) (w : env) (history : list io) (reply : string)
  (H : In channel valid_channels) :
  let fields := PyStr.split "," (PyStr.strip reply) in
  (w history (Query "*IDN?") = Ok reply ->
   length fields < 4 ->
   run w DP832.id history = (Raise index_error, (history ++ [Query "*IDN?"])%list))
  /\ (w history (Query (":MEAS? " ++ DP832.CH channel)) = Ok reply ->
      float_of_string (PyStr.strip reply) = None ->
      run w (DP832.measure_voltage channel) history =
      (Raise (float_error (PyStr.strip reply)),
       (history ++ [Query (":MEAS? " ++ DP832.CH channel)])%list))
  /\ (w history (Query (":MEAS:CURR? " ++ DP832.CH channel)) = Ok reply ->
      float_of_string (PyStr.strip reply) = None ->
      run w (DP832.measure_current channel) history =
      (Raise (float_error (PyStr.strip reply)),
       (history ++ [Query (":MEAS:CURR? " ++ DP832.CH channel)])%list))
  /\ (w history (Query (":OUTP:OCP:VAL? " ++ DP832.CH channel)) = Ok reply ->
      float_of_string (PyStr.strip reply) = None ->
      run w (DP832.get_ocp_value channel) history =
      (Raise (float_error (PyStr.strip reply)),
       (history ++ [Query (":OUTP:OCP:VAL? " ++ DP832.CH channel)])%list))
  /\ (w history (Query (":OUTP:OVP:VAL? " ++ DP832.CH channel)) = Ok reply ->
      float_of_string (PyStr.strip reply) = None ->
      run w (DP832.get_ovp_value channel) history =
      (Raise (float_error (PyStr.strip reply)),
       (history ++ [Query (":OUTP:OVP:VAL? " ++ DP832.CH channel)])%list))
  /\ (w history (Query (":APPL? " ++ DP832.CH channel)) = Ok reply ->
      let failed e :=
        run w (DP832.get_channel_settings channel) history
        = (Raise e, (history ++ [Query (":APPL? " ++ DP832.CH channel)])%list) in
      (length fields < 2 -> failed index_error)
      /\ (forall before field_v field_i,
            fields = (before ++ [field_v; field_i])%list ->
            float_of_string field_v = None -> failed (float_error field_v))
      /\ (forall before field_v field_i v,
            fields = (before ++ [field_v; field_i])%list ->
            float_of_string field_v = Some v ->
            float_of_string field_i = None -> failed (float_error field_i)))
  /\ (w history (Query (":MEAS:ALL? " ++ DP832.CH channel)) = Ok reply ->
      let failed e :=
        run w (DP832.measure_power channel) history
        = (Raise e, (history ++ [Query (":MEAS:ALL? " ++ DP832.CH channel)])%list) in
      (length fields < 3 -> failed index_error)
      /\ (forall field_p,
            nth_error fields 2 = Some field_p ->
            float_of_string field_p = None -> failed (float_error field_p)))
  /\ (w history (Query (":MEAS:ALL? " ++ DP832.CH channel)) = Ok reply ->
      let failed e :=
        run w (DP832.measure_all channel) history
        = (Raise e, (history ++ [Query (":MEAS:ALL? " ++ DP832.CH channel)])%list) in
      (forall field_v,
          nth_error fields 0 = Some field_v ->
          float_of_string field_v = None -> failed (float_error field_v))
      /\ (forall field_v v,
            nth_error fields 0 = Some field_v ->
            float_of_string field_v = Some v ->
            (length fields < 2 -> failed index_error)
            /\ (forall field_i,
                  nth_error fields 1 = Some field_i ->
                  float_of_string field_i = None -> failed (float_error field_i))
            /\ (forall field_i i,
                  nth_error fields 1 = Some field_i ->
                  float_of_string field_i = Some i ->
                  (length fields < 3 -> failed index_error)
                  /\ (forall field_p,
                        nth_error fields 2 = Some field_p ->
                        float_of_string field_p = None ->
                        failed (float_error field_p))))).
Proof.
  intros fields.
  repeat match goal with |- _ /\ _ => split end.
  - intros Hreply Hshort.
    unfold DP832.id. rewrite run_query, Hreply. fold fields.
    assert (Hne : fields <> []) by apply split_nonempty.
    rewrite !getitem_item.
    destruct fields as [| f0 [| f1 [| f2 [| f3 rest]]]];
      try (simpl in Hshort; lia); try contradiction; reflexivity.
  - intros Hreply Hbad. unfold DP832.measure_voltage. run_method Hreply.
    rewrite (float_none _ Hbad). reflexivity.
  - intros Hreply Hbad. unfold DP832.measure_current. run_method Hreply.
    rewrite (float_none _ Hbad). reflexivity.
  - intros Hreply Hbad. unfold DP832.get_ocp_value. run_method Hreply.
    rewrite (float_none _ Hbad). reflexivity.
  - intros Hreply Hbad. unfold DP832.get_ovp_value. run_method Hreply.
    rewrite (float_none _ Hbad). reflexivity.
  - intros Hreply failed. subst failed. cbv beta.
    unfold DP832.get_channel_settings. run_method Hreply. fold fields.
    split; [| split].
    + intros Hshort. now rewrite run_field, (item_before_two fields Hshort).
    + intros before field_v field_i -> Hv.
      now rewrite run_field, item_last_but_one, Hv.
    + intros before field_v field_i v -> Hv Hi.
      now rewrite run_field, item_last_but_one, Hv, run_field, item_last, Hi.
  - intros Hreply failed. subst failed. cbv beta.
    unfold DP832.measure_power. run_method Hreply. fold fields.
    rewrite getitem_item. change 2%Z with (Z.of_nat 2). rewrite item_nonneg.
    split.
    + intros Hshort. rewrite (proj2 (nth_error_None fields 2)) by lia. reflexivity.
    + intros field_p -> Hp. rewrite bind_ret_l, (float_none _ Hp). reflexivity.
  - intros Hreply failed. subst failed. cbv beta.
    unfold DP832.measure_all. run_method Hreply. fold fields.
    rewrite run_field. change 0%Z with (Z.of_nat 0). rewrite item_nonneg.
    split.
    + intros field_v -> Hv. now rewrite Hv.
    + intros field_v v -> Hv. rewrite Hv, run_field.
      change 1%Z with (Z.of_nat 1). rewrite item_nonneg.
      split; [| split].
      * intros Hshort. rewrite (proj2 (nth_error_None fields 1)) by lia. reflexivity.
      * intros field_i -> Hi. now rewrite Hi.
      * intros field_i i -> Hi. rewrite Hi, run_field.
        change 2%Z with (Z.of_nat 2). rewrite item_nonneg.
        split.
        -- intros Hshort. rewrite (proj2 (nth_error_None fields 2)) by lia. reflexivity.
        -- intros field_p -> Hp. now rewrite Hp.
Qed.

Lemma malformed_reply_raises_builtin_error_witness :
  In 1%Z valid_channels
  /\ run (answering "abc") (DP832.measure_voltage (F := DecimalFloat.decimal_float) 1) [] =
     (Raise (Exn ValueError "could not convert string to float: 'abc'"),
      [Query ":MEAS? CH1"])
  /\ run (answering "abc") DP832.id [] =
     (Raise (Exn IndexError "list index out of range"), [Query "*IDN?"])
  /\ run (answering "abc") (DP832.measure_all (F := DecimalFloat.decimal_float) 1) [] =
     (Raise (Exn ValueError "could not convert string to float: 'abc'"),
      [Query ":MEAS:ALL? CH1"])
  /\ run (answering "abc") (DP832.measure_power (F := DecimalFloat.decimal_float) 1) [] =
     (Raise (Exn IndexError "list index out of range"), [Query ":MEAS:ALL? CH1"]).
Proof.
  split; [exact one_is_valid |].
  destruct (malformed_reply_raises_builtin_error DecimalFloat.decimal_float 1
              (answering "abc") [] "abc" one_is_valid)
    as (Hid & Hvoltage & _ & _ & _ & _ & Hpower & Hall).
  split; [| split; [| split]].
  - apply Hvoltage; reflexivity.
  - apply Hid; [reflexivity | simpl; lia].
  - destruct (Hall eq_refl) as [Hfirst _]. exact (Hfirst "abc" eq_refl eq_refl).
  - destruct (Hpower eq_refl) as [Hshort _]. apply Hshort. simpl. lia.
Defined.

(** ** Substrings without case *)

Section Substrings.

Lemma prefix_app (s t : string) :
  String.prefix s t = true <-> exists rest, t = s ++ rest.
Proof.
  revert t. induction s as [| a s IH]; intros t.
  - destruct t; simpl; split; eauto.
  - destruct t as [| b t]; simpl.
    + split; [discriminate | intros [rest E]; discriminate E].
    + destruct (ascii_dec a b) as [-> | Hab].
      * rewrite IH. split; intros [rest E]; exists rest.
        -- now rewrite E.
        -- now inversion E.
      * split; [discriminate |].
        intros [rest E]. inversion E. congruence.
Qed.

Lemma contains_app (needle hay : string) :
  PyStr.contains needle hay = true <->
  exists before after, hay = before ++ needle ++ after.
Proof.
  induction hay as [| c hay IH]; cbn [PyStr.contains].
  - rewrite orb_false_r, prefix_app. split.
    + intros [rest E]. now exists EmptyString, rest.
    + intros [before [after E]].
      destruct before; [now exists after | discriminate E].
  - rewrite orb_true_iff, prefix_app, IH. split.
    + intros [[rest E] | [before [after E]]].
      * now exists EmptyString, rest.
      * exists (String c before), after. simpl. now rewrite E.
    + intros [[| b before] [after E]].
      * left. now exists after.
      * right. exists before, after. now inversion E.
Qed.

Lemma upper_app (s t : string) :
  PyStr.upper (s ++ t) = PyStr.upper s ++ PyStr.upper t.
Proof. induction s as [| c s IH]; simpl; [reflexivity | now rewrite IH]. Qed.

Lemma upper_app_inv (text : string) :
  forall a b,
    PyStr.upper text = a ++ b ->
    exists s t, text = s ++ t /\ PyStr.upper s = a /\ PyStr.upper t = b.
Proof.
  induction text as [| c text IH]; intros a b E.
  - destruct a; [| discriminate E]. simpl in E.
    exists EmptyString, EmptyString. repeat split. exact E.
  - destruct a as [| x a].
    + exists EmptyString, (String c text). repeat split. exact E.
    + simpl in E. inversion E as [[Hc Ht]].
      destruct (IH a b Ht) as [s [t [Htext [Hs Hb]]]].
      exists (String c s), t. simpl. now rewrite Htext, Hs, Hb.
Qed.

Lemma contains_upper (token text : string) :
  PyStr.upper token = token ->
  PyStr.contains token (PyStr.upper text) = true <->
  occurs_ignoring_case token text.
Proof.
  intros Hupper. rewrite contains_app. unfold occurs_ignoring_case. rewrite Hupper.
  split.
  - intros [before [after E]].
    destruct (upper_app_inv text before (token ++ after) E) as [s [rest [Htext [_ Hrest]]]].
    destruct (upper_app_inv rest token after Hrest) as [middle [t [Hr [Hm _]]]].
    exists s, middle, t. now rewrite Htext, Hr.
  - intros [before [middle [after [E Hm]]]].
    exists (PyStr.upper before), (PyStr.upper after).
    now rewrite E, !upper_app, Hm.
Qed.

End Substrings.

(** ** The single-address probes *)

Ltac step_session :=
  repeat match goal with
         | |- context [lift ?r] =>
             let e := fresh "e" in destruct r as [? | e]; simpl
         end.

Lemma discovery_probe_run (w : env) (ip : string) (port : Z) history :
  run w (Discovery.test_dp832_connection ip port) history =
  classified ["DP832"] (run w (session true ip port) history).
Proof.
  unfold Discovery.test_dp832_connection, session, classified, identifies.
  simpl. step_session; try reflexivity.
  rewrite orb_false_r.
  match goal with |- context [if ?c then _ else _] => destruct c end; reflexivity.
Qed.

Lemma test_ip_run (w : env) (ip : string) (port : Z) history :
  run w (TestIp.test_ip true ip port) history =
  classified_Exception ["DP832"; "DP821"; "DP712"]
    (run w (session false ip port) history).
Proof.
  unfold TestIp.test_ip, session, classified_Exception, identifies.
  simpl. step_session;
    try match goal with
        | |- context [derives_from_Exception ?c] => destruct (derives_from_Exception c)
        end;
    try reflexivity.
  match goal with |- context [if ?c then _ else _] => destruct c end; reflexivity.
Qed.

Lemma classified_total (models : list string) (outcome : result string * list io) :
  exists o h',
    classified models outcome = (Ok o, h')
    /\ forall s,
         o = Some s <->
         exists reply,
           fst outcome = Ok reply /\ identifies models reply = true
           /\ s = PyStr.strip reply.
Proof.
  destruct outcome as [[reply | e] h]; simpl.
  - destruct (identifies models reply) eqn:E.
    + exists (Some (PyStr.strip reply)), h. split; [reflexivity |].
      intros s. split.
      * intros Hs. inversion Hs; subst s. now exists reply.
      * intros [r [Hr [_ Hs]]]. inversion Hr; subst r. now subst s.
    + exists None, h. split; [reflexivity |].
      intros s. split; [discriminate |].
      intros [r [Hr [Hid _]]]. inversion Hr; subst r. congruence.
  - exists None, h. split; [reflexivity |].
    intros s. split; [discriminate |].
    intros [r [Hr _]]. discriminate Hr.
Qed.

(** C2, as stated, fails: when pyvisa could not be imported, [test_ip] of
    [test_ip.py] raises ImportError, also for an instrument that would answer
    a matching identification. *)
Lemma test_ip_raises_without_visa :
  run (answering matching_id) (TestIp.test_ip false "192.168.1.100" 5555) [] =
  (Raise (Exn ImportError "PyVISA not available. Please install: pip install pyvisa"), [])
  /\ identifies ["DP832"; "DP821"; "DP712"] matching_id = true.
Proof. split; reflexivity. Qed.

(** C2, amended. Whatever the environment answers, [test_dp832_connection]
    raises nothing, and answers the stripped identification exactly when its
    session went through and the reply, in upper case, holds RIGOL and DP832;
    everything else gives none.  Once pyvisa is loaded, [test_ip] answers the
    stripped identification when its session went through and the reply, in
    upper case, holds RIGOL and one of DP832, DP821, DP712, none when the
    reply does not match or a call of the session raises an [Exception], and
    lets through an exception that is no [Exception], which its
    [except Exception] does not handle; when pyvisa is not loaded, [test_ip]
    raises ImportError before any call.  Holding a token in upper case is the
    same as holding it in any mix of cases. *)
Theorem probe_classifies_identification
  (w : env) (ip : string) (port : Z) (history : list io) :
  (exists o h',
      run w (Discovery.test_dp832_connection ip port) history = (Ok o, h')
      /\ forall s,
           o = Some s <->
           exists reply,
             fst (run w (session true ip port) history) = Ok reply
             /\ identifies ["DP832"] reply = true
             /\ s = PyStr.strip reply)
  /\ (exists outcome h',
      run w (session false ip port) history = (outcome, h')
      /\ run w (TestIp.test_ip true ip port) history
         = (match outcome with
            | Ok reply =>
                Ok (if identifies ["DP832"; "DP821"; "DP712"] reply
                    then Some (PyStr.strip reply) else None)
            | Raise e =>
                if derives_from_Exception (exn_cls e) then Ok None else Raise e
            end, h'))
  /\ run w (TestIp.test_ip false ip port) history =
     (Raise (Exn ImportError "PyVISA not available. Please install: pip install pyvisa"),
      history)
  /\ (forall reply,
        (identifies ["DP832"] reply = true <->
         occurs_ignoring_case "RIGOL" reply /\ occurs_ignoring_case "DP832" reply)
        /\ (identifies ["DP832"; "DP821"; "DP712"] reply = true <->
            occurs_ignoring_case "RIGOL" reply
            /\ (occurs_ignoring_case "DP832" reply
                \/ occurs_ignoring_case "DP821" reply
                \/ occurs_ignoring_case "DP712" reply))).
Proof.
  split; [| split; [| split]].
  - rewrite discovery_probe_run. apply classified_total.
  - rewrite test_ip_run. unfold classified_Exception.
    destruct (run w (session false ip port) history) as [[reply | e] h'].
    + exists (Ok reply), h'. split; reflexivity.
    + exists (Raise e), h'. split; [reflexivity |].
      destruct (derives_from_Exception (exn_cls e)); reflexivity.
  - reflexivity.
  - intros reply. unfold identifies. simpl existsb.
    rewrite !andb_true_iff, !orb_true_iff, !contains_upper by reflexivity.
    split; (split;
      [ intros [Hv Hm]; split; [exact Hv |];
        repeat (destruct Hm as [Hm | Hm]; [auto |]); discriminate Hm
      | intros [Hv Hm]; split; [exact Hv |];
        repeat (destruct Hm as [Hm | Hm]; [auto |]); auto ]).
Qed.

(** An interrupt during the query goes through [test_ip] and is turned into
    none by the bare [except] of [test_dp832_connection]. *)
Example interrupt_goes_through_test_ip :
  fst (run interrupted (TestIp.test_ip true "192.168.1.100" 5555) [])
  = Raise keyboard_interrupt
  /\ fst (run interrupted (Discovery.test_dp832_connection "192.168.1.100" 5555) [])
     = Ok None.
Proof. split; reflexivity. Qed.

(** C10, as stated, fails: the identification of a DP821A is a match for
    [test_ip] and none for [test_dp832_connection]. *)
Lemma probes_disagree_on_dp821 :
  fst (run (answering dp821_id) (Discovery.test_dp832_connection "192.168.1.100" 5555) [])
  = Ok None
  /\ fst (run (answering dp821_id) (TestIp.test_ip true "192.168.1.100" 5555) [])
     = Ok (Some dp821_id).
Proof. split; reflexivity. Qed.

(** C10, amended. On one identification reply, whatever [test_dp832_connection]
    answers as a match, [test_ip], with pyvisa loaded, answers as the same
    match; the two agree whenever the reply, in upper case, holds DP832 or
    holds neither DP821 nor DP712.  [test_ip] accepts DP821 and DP712 beside
    DP832. *)
Theorem probes_agree_up_to_model_tokens
  (w1 w2 : env) (h1 h2 : list io) (ip : string) (port : Z) (reply : string)
  (H1 : fst (run w1 (session true ip port) h1) = Ok reply)
  (H2 : fst (run w2 (session false ip port) h2) = Ok reply) :
  (forall s,
      fst (run w1 (Discovery.test_dp832_connection ip port) h1) = Ok (Some s) ->
      fst (run w2 (TestIp.test_ip true ip port) h2) = Ok (Some s))
  /\ (PyStr.contains "DP832" (PyStr.upper reply) = true
      \/ (PyStr.contains "DP821" (PyStr.upper reply) = false
          /\ PyStr.contains "DP712" (PyStr.upper reply) = false) ->
      fst (run w1 (Discovery.test_dp832_connection ip port) h1) =
      fst (run w2 (TestIp.test_ip true ip port) h2)).
Proof.
  rewrite discovery_probe_run, test_ip_run.
  destruct (run w1 (session true ip port) h1) as [r1 h1'].
  destruct (run w2 (session false ip port) h2) as [r2 h2'].
  simpl in H1, H2. subst r1 r2. unfold classified, classified_Exception, identifies. simpl.
  destruct (PyStr.contains "RIGOL" (PyStr.upper reply)); simpl.
  - destruct (PyStr.contains "DP832" (PyStr.upper reply)); simpl.
    + split; auto.
    + split; [discriminate |].
      intros [E | [E1 E2]]; [discriminate E |]. now rewrite E1, E2.
  - split; auto.
Qed.

Lemma probes_agree_up_to_model_tokens_witness :
  fst (run (answering matching_id) (session true "192.168.1.100" 5555) []) = Ok matching_id
  /\ fst (run (answering matching_id) (session false "192.168.1.100" 5555) []) = Ok matching_id
  /\ fst (run (answering matching_id) (Discovery.test_dp832_connection "192.168.1.100" 5555) [])
     = fst (run (answering matching_id) (TestIp.test_ip true "192.168.1.100" 5555) []).
Proof.
  split; [reflexivity |]. split; [reflexivity |].
  apply (probes_agree_up_to_model_tokens (answering matching_id) (answering matching_id)
           [] [] "192.168.1.100" 5555 matching_id eq_refl eq_refl).
  left. reflexivity.
Defined.

(** ** The scan *)

Section Scan.
Variable w : env.

Lemma ping_ip_run (ip : string) history :
  run w (Discovery.ping_ip ip) history =
  (Ok match w history (Ping ip) with
      | Ok returncode => Z.eqb returncode 0
      | Raise _ => false
      end,
   (history ++ [Ping ip])%list).
Proof.
  unfold Discovery.ping_ip. simpl.
  destruct (w history (Ping ip)); reflexivity.
Qed.

Lemma get_local_network_total history :
  exists base h', run w Discovery.get_local_network history = (Ok base, h').
Proof.
  unfold Discovery.get_local_network. simpl.
  destruct (w history LocalAddress); simpl; eauto.
Qed.


Lemma sweep_nothing (Hnone : no_host_responds w) (completed : list string) :
  forall responsive_ips history,
  exists h', run w (Discovery.sweep completed responsive_ips) history
             = (Ok responsive_ips, h').
Proof.
  induction completed as [| ip rest IH]; intros responsive_ips history;
    cbn [Discovery.sweep].
  - simpl. eauto.
  - rewrite run_bind, ping_ip_run.
    destruct (w history (Ping ip)) as [returncode | e] eqn:E.
    + destruct (Z.eqb_spec returncode 0) as [-> | _].
      * exfalso. exact (Hnone history ip E).
      * apply IH.
    + apply IH.
Qed.



End Scan.



(** * Further properties *)

(** ** Programs that make no call *)

Lemma pure_run_snd {A : Type} (p : prog A) :
  pure p -> forall w history, snd (run w p history) = history.
Proof. destruct p; simpl; intros H; [auto | auto | contradiction]. Qed.

Lemma pure_run_fst {A : Type} (p : prog A) :
  pure p -> forall w1 w2 h1 h2, fst (run w1 p h1) = fst (run w2 p h2).
Proof. destruct p; simpl; intros H; [auto | auto | contradiction]. Qed.

Lemma pure_bind {A B : Type} (p : prog A) (f : A -> prog B) :
  pure p -> (forall a, pure (f a)) -> pure (bind p f).
Proof. destruct p; simpl; intros H Hf; [apply Hf | exact I | contradiction]. Qed.

Lemma pure_getitem {A : Type} (l : list A) (i : Z) : pure (getitem l i).
Proof. rewrite getitem_item. destruct (item l i); exact I. Qed.

Lemma pure_float {F : PyFloat} (s : string) : pure (float s).
Proof. unfold float. destruct (float_of_string s); exact I. Qed.

Lemma pure_ret {A : Type} (a : A) : pure (Ret a).
Proof. exact I. Qed.

Create HintDb pure_db.
#[local] Hint Resolve pure_getitem pure_float pure_ret : pure_db.

Ltac prove_pure :=
  repeat (apply pure_bind; [auto with pure_db | intros]); auto with pure_db.

(** A checked query followed by a reading that makes no call. *)
Lemma guarded_one_query {A : Type} (channel : Z) (cmd : string)
  (reading : string -> prog A) :
  In channel valid_channels ->
  (forall reply, pure (reading reply)) ->
  one_query (bind (DP832._validate_channel channel)
               (fun _ => bind (DP832.query cmd) reading)) cmd.
Proof.
  intros Hch Hpure w history. rewrite (validate_ok channel Hch), bind_ret_l, run_query.
  destruct (w history (Query cmd)) as [reply | e].
  - split; [| discriminate].
    apply pure_run_snd, Hpure.
  - split; [reflexivity |]. intros e' E. now inversion E.
Qed.

Lemma guarded_one_write (channel : Z) (cmd : string) :
  In channel valid_channels ->
  one_write (bind (DP832._validate_channel channel) (fun _ => DP832.write cmd)) cmd.
Proof.
  intros Hch w history. rewrite (validate_ok channel Hch), bind_ret_l.
  unfold DP832.write. simpl. apply run_lift.
Qed.

Ltac one_call :=
  first [ apply guarded_one_query; [assumption | intros; prove_pure]
        | apply guarded_one_write; assumption ].

(** ** One call per method *)

Lemma id_one_query : one_query DP832.id "*IDN?".
Proof.
  intros w history. unfold DP832.id. rewrite run_query.
  destruct (w history (Query "*IDN?")) as [reply | e].
  - split; [| discriminate]. apply pure_run_snd. prove_pure.
  - split; [reflexivity |]. intros e' E. now inversion E.
Qed.

Lemma readers_query_once_all
  (F : PyFloat) (channel : Z) (H : In channel valid_channels) :
  one_query DP832.id "*IDN?"
  /\ one_query (DP832.get_output_state channel) (":OUTP:STAT? " ++ DP832.CH channel)
  /\ one_query (DP832.get_channel_settings channel) (":APPL? " ++ DP832.CH channel)
  /\ one_query (DP832.measure_voltage channel) (":MEAS? " ++ DP832.CH channel)
  /\ one_query (DP832.measure_current channel) (":MEAS:CURR? " ++ DP832.CH channel)
  /\ one_query (DP832.measure_power channel) (":MEAS:ALL? " ++ DP832.CH channel)
  /\ one_query (DP832.measure_all channel) (":MEAS:ALL? " ++ DP832.CH channel)
  /\ one_query (DP832.get_output_mode channel) (":OUTP:MODE? " ++ DP832.CH channel)
  /\ one_query (DP832.get_ocp_enabled channel) (":OUTP:OCP? " ++ DP832.CH channel)
  /\ one_query (DP832.get_ocp_value channel) (":OUTP:OCP:VAL? " ++ DP832.CH channel)
  /\ one_query (DP832.get_ovp_enabled channel) (":OUTP:OVP? " ++ DP832.CH channel)
  /\ one_query (DP832.get_ovp_value channel) (":OUTP:OVP:VAL? " ++ DP832.CH channel)
  /\ one_query (DP832.get_ocp_alarm channel) (":OUTP:OCP:ALAR? " ++ DP832.CH channel)
  /\ one_query (DP832.get_ovp_alarm channel) (":OUTP:OVP:ALAR? " ++ DP832.CH channel).
Proof.
  split; [exact id_one_query |].
  repeat match goal with |- _ /\ _ => split end; one_call.
Qed.

(** X1. On a valid channel every reading method, and [id], makes exactly one
    call, the query of its own command: it never writes and never asks
    twice, whatever the reply, well formed or not; when the query raises,
    the method raises the same exception. *)
Theorem readers_query_once
  (F : PyFloat) (channel : Z) (H : In channel valid_channels) :
  one_query DP832.id "*IDN?"
  /\ one_query (DP832.get_output_state channel) (":OUTP:STAT? " ++ DP832.CH channel)
  /\ one_query (DP832.get_channel_settings channel) (":APPL? " ++ DP832.CH channel)
  /\ one_query (DP832.measure_voltage channel) (":MEAS? " ++ DP832.CH channel)
  /\ one_query (DP832.measure_current channel) (":MEAS:CURR? " ++ DP832.CH channel)
  /\ one_query (DP832.measure_power channel) (":MEAS:ALL? " ++ DP832.CH channel)
  /\ one_query (DP832.measure_all channel) (":MEAS:ALL? " ++ DP832.CH channel)
  /\ one_query (DP832.get_output_mode channel) (":OUTP:MODE? " ++ DP832.CH channel)
  /\ one_query (DP832.get_ocp_enabled channel) (":OUTP:OCP? " ++ DP832.CH channel)
  /\ one_query (DP832.get_ocp_value channel) (":OUTP:OCP:VAL? " ++ DP832.CH channel)
  /\ one_query (DP832.get_ovp_enabled channel) (":OUTP:OVP? " ++ DP832.CH channel)
  /\ one_query (DP832.get_ovp_value channel) (":OUTP:OVP:VAL? " ++ DP832.CH channel)
  /\ one_query (DP832.get_ocp_alarm channel) (":OUTP:OCP:ALAR? " ++ DP832.CH channel)
  /\ one_query (DP832.get_ovp_alarm channel) (":OUTP:OVP:ALAR? " ++ DP832.CH channel).
Proof. exact (readers_query_once_all F channel H). Qed.

Lemma readers_query_once_witness :
  In 1%Z valid_channels
  /\ snd (run (answering "1.0,oops")
            (DP832.measure_all (F := DecimalFloat.decimal_float) 1)
            [Write ":OUTP:STAT CH1,ON"])
     = [Write ":OUTP:STAT CH1,ON"; Query ":MEAS:ALL? CH1"].
Proof.
  split; [exact one_is_valid |].
  destruct (readers_query_once DecimalFloat.decimal_float 1 one_is_valid)
    as (_ & _ & _ & _ & _ & _ & Hall & _).
  exact (proj1 (Hall (answering "1.0,oops") [Write ":OUTP:STAT CH1,ON"])).
Defined.

(** X2. On a valid channel every setting or clearing method makes exactly one
    call, the write of its command, and ends as the write ended: it reads
    nothing back, and an exception of the write is its own. *)
Theorem writers_write_once
  (F : PyFloat) (channel : Z) (H : In channel valid_channels) :
  (forall state,
      one_write (DP832.set_output_state channel state)
        (":OUTP:STAT " ++ DP832.CH channel ++ "," ++ (if state then "ON" else "OFF")))
  /\ (forall voltage current,
      one_write (DP832.set_channel_settings channel voltage current)
        (":APPL " ++ DP832.CH channel ++ "," ++ string_of_float voltage
           ++ "," ++ string_of_float current))
  /\ (forall enabled,
      one_write (DP832.set_ocp_enabled channel enabled)
        (":OUTP:OCP " ++ DP832.CH channel ++ "," ++ (if enabled then "ON" else "OFF")))
  /\ (forall current,
      one_write (DP832.set_ocp_value channel current)
        (":OUTP:OCP:VAL " ++ DP832.CH channel ++ "," ++ string_of_float current))
  /\ (forall enabled,
      one_write (DP832.set_ovp_enabled channel enabled)
        (":OUTP:OVP " ++ DP832.CH channel ++ "," ++ (if enabled then "ON" else "OFF")))
  /\ (forall voltage,
      one_write (DP832.set_ovp_value channel voltage)
        (":OUTP:OVP:VAL " ++ DP832.CH channel ++ "," ++ string_of_float voltage))
  /\ one_write (DP832.clear_ocp_alarm channel) (":OUTP:OCP:CLEAR " ++ DP832.CH channel)
  /\ one_write (DP832.clear_ovp_alarm channel) (":OUTP:OVP:CLEAR " ++ DP832.CH channel).
Proof.
  repeat match goal with |- _ /\ _ => split end; intros; one_call.
Qed.

Lemma writers_write_once_witness :
  In 1%Z valid_channels
  /\ run (answering "")
       (DP832.set_ovp_value (F := DecimalFloat.decimal_float) 1
          (DecimalFloat.Finite false 33 0)) []
     = (Ok tt, [Write ":OUTP:OVP:VAL CH1,33.0"]).
Proof.
  split; [exact one_is_valid |].
  destruct (writers_write_once DecimalFloat.decimal_float 1 one_is_valid)
    as (_ & _ & _ & _ & _ & Hovp & _).
  exact (Hovp (DecimalFloat.Finite false 33 0) (answering "") []).
Defined.

(** ** Blanks around a reply *)

Lemma all_space_app (s t : string) :
  all_space (s ++ t) = all_space s && all_space t.
Proof.
  induction s as [| c s IH]; simpl; [reflexivity |].
  now rewrite IH, andb_assoc.
Qed.

Lemma lstrip_all_space (s : string) : all_space s = true -> PyStr.lstrip s = "".
Proof.
  induction s as [| c s IH]; simpl; [reflexivity |].
  intros H. apply andb_true_iff in H as [Hc Hs]. rewrite Hc. now apply IH.
Qed.

Lemma rstrip_all_space (s : string) : all_space s = true -> PyStr.rstrip s = "".
Proof.
  induction s as [| c s IH]; simpl; [reflexivity |].
  intros H. apply andb_true_iff in H as [Hc Hs]. now rewrite (IH Hs), Hc.
Qed.

(** What [lstrip] leaves is empty or starts on a character that is no blank. *)
Lemma lstrip_head (s : string) :
  PyStr.lstrip s = ""
  \/ exists c r, PyStr.lstrip s = String c r /\ PyStr.isspace c = false.
Proof.
  induction s as [| c s IH]; simpl; [now left |].
  destruct (PyStr.isspace c) eqn:E; [exact IH |].
  right. now exists c, s.
Qed.

Lemma lstrip_empty (s : string) : PyStr.lstrip s = "" -> all_space s = true.
Proof.
  induction s as [| c s IH]; simpl; [reflexivity |].
  destruct (PyStr.isspace c); [exact IH | discriminate].
Qed.

Lemma rstrip_empty (s : string) : PyStr.rstrip s = "" -> all_space s = true.
Proof.
  induction s as [| c s IH]; simpl; [reflexivity |].
  destruct (PyStr.rstrip s) eqn:E; [| discriminate].
  destruct (PyStr.isspace c); [intros _; now apply IH | discriminate].
Qed.

Lemma lstrip_app (s t : string) :
  PyStr.lstrip (s ++ t) =
  match PyStr.lstrip s with
  | EmptyString => PyStr.lstrip t
  | String c r => String c r ++ t
  end.
Proof.
  induction s as [| c s IH]; simpl; [now destruct (PyStr.lstrip t) |].
  destruct (PyStr.isspace c); [exact IH | reflexivity].
Qed.

Lemma rstrip_app_space (s pad : string) :
  all_space pad = true -> PyStr.rstrip (s ++ pad) = PyStr.rstrip s.
Proof.
  intros H. induction s as [| c s IH]; simpl.
  - now apply rstrip_all_space.
  - now rewrite IH.
Qed.

Lemma strip_pad (before s after : string) :
  all_space before = true -> all_space after = true ->
  PyStr.strip (before ++ s ++ after) = PyStr.strip s.
Proof.
  intros Hb Ha. unfold PyStr.strip.
  rewrite lstrip_app, (lstrip_all_space before Hb), lstrip_app.
  destruct (PyStr.lstrip s) as [| c r].
  - now rewrite (lstrip_all_space after Ha).
  - now apply rstrip_app_space.
Qed.

Lemma strip_empty (s : string) : PyStr.strip s = "" -> all_space s = true.
Proof.
  unfold PyStr.strip. intros H. apply rstrip_empty in H.
  destruct (lstrip_head s) as [E | [c [r [E Hc]]]].
  - now apply lstrip_empty.
  - rewrite E in H. simpl in H. rewrite Hc in H. discriminate H.
Qed.

Ltac ignore_blanks H :=
  intros w1 w2 h1 h2 before reply after Hbefore Hafter E1 E2;
  rewrite !(validate_ok _ H), !bind_ret_l, !run_query, E1, E2; cbv zeta;
  rewrite (strip_pad _ _ _ Hbefore Hafter);
  apply pure_run_fst; prove_pure.

(** X3. Blanks around a reply change nothing: on a valid channel every
    reading method answers the same, a value or an exception, on a reply and
    on that reply with blanks (blank, TAB, CR, LF and the like) before and
    after it. *)
Theorem readers_ignore_surrounding_blanks
  (F : PyFloat) (channel : Z) (H : In channel valid_channels) :
  unchanged_by_blanks (DP832.get_output_state channel) (":OUTP:STAT? " ++ DP832.CH channel)
  /\ unchanged_by_blanks (DP832.get_channel_settings channel) (":APPL? " ++ DP832.CH channel)
  /\ unchanged_by_blanks (DP832.measure_voltage channel) (":MEAS? " ++ DP832.CH channel)
  /\ unchanged_by_blanks (DP832.measure_current channel) (":MEAS:CURR? " ++ DP832.CH channel)
  /\ unchanged_by_blanks (DP832.measure_power channel) (":MEAS:ALL? " ++ DP832.CH channel)
  /\ unchanged_by_blanks (DP832.measure_all channel) (":MEAS:ALL? " ++ DP832.CH channel)
  /\ unchanged_by_blanks (DP832.get_output_mode channel) (":OUTP:MODE? " ++ DP832.CH channel)
  /\ unchanged_by_blanks (DP832.get_ocp_enabled channel) (":OUTP:OCP? " ++ DP832.CH channel)
  /\ unchanged_by_blanks (DP832.get_ocp_value channel) (":OUTP:OCP:VAL? " ++ DP832.CH channel)
  /\ unchanged_by_blanks (DP832.get_ovp_enabled channel) (":OUTP:OVP? " ++ DP832.CH channel)
  /\ unchanged_by_blanks (DP832.get_ovp_value channel) (":OUTP:OVP:VAL? " ++ DP832.CH channel)
  /\ unchanged_by_blanks (DP832.get_ocp_alarm channel) (":OUTP:OCP:ALAR? " ++ DP832.CH channel)
  /\ unchanged_by_blanks (DP832.get_ovp_alarm channel) (":OUTP:OVP:ALAR? " ++ DP832.CH channel).
Proof.
  unfold DP832.get_output_state, DP832.get_channel_settings, DP832.measure_voltage,
    DP832.measure_current, DP832.measure_power, DP832.measure_all,
    DP832.get_output_mode, DP832.get_ocp_enabled, DP832.get_ocp_value,
    DP832.get_ovp_enabled, DP832.get_ovp_value, DP832.get_ocp_alarm,
    DP832.get_ovp_alarm.
  repeat match goal with |- _ /\ _ => split end; ignore_blanks H.
Qed.

Lemma readers_ignore_surrounding_blanks_witness :
  In 1%Z valid_channels
  /\ fst (run (answering (" " ++ "5.002,1.001,5.007" ++ crlf))
            (DP832.measure_all (F := DecimalFloat.decimal_float) 1) [])
     = fst (run (answering "5.002,1.001,5.007")
              (DP832.measure_all (F := DecimalFloat.decimal_float) 1) []).
Proof.
  split; [exact one_is_valid |].
  destruct (readers_ignore_surrounding_blanks DecimalFloat.decimal_float 1 one_is_valid)
    as (_ & _ & _ & _ & _ & Hall & _).
  exact (Hall (answering (" " ++ "5.002,1.001,5.007" ++ crlf))
           (answering "5.002,1.001,5.007") [] [] " " "5.002,1.001,5.007" crlf
           eq_refl eq_refl eq_refl eq_refl).
Defined.

(** ** Splitting and joining *)

Lemma split_length (sep : ascii) (s : string) :
  length (PyStr.split sep s) = S (count_char sep s).
Proof.
  induction s as [| c s IH]; simpl; [reflexivity |].
  destruct (Ascii.eqb c sep); simpl.
  - now rewrite IH.
  - destruct (PyStr.split sep s) as [| f fs] eqn:E; simpl in *; [discriminate IH | exact IH].
Qed.

(** Joining the fields of a split by the separator gives the text back. *)
Lemma join_split (sep : ascii) (s : string) :
  PyStr.join (String sep "") (PyStr.split sep s) = s.
Proof.
  induction s as [| c s IH]; simpl; [reflexivity |].
  destruct (Ascii.eqb_spec c sep) as [-> | Hc].
  - destruct (PyStr.split sep s) as [| f fs] eqn:E.
    + exfalso. exact (split_nonempty sep s E).
    + simpl in *. now rewrite IH.
  - destruct (PyStr.split sep s) as [| f fs] eqn:E.
    + exfalso. exact (split_nonempty sep s E).
    + destruct fs; simpl in *; now rewrite IH.
Qed.

Lemma split_fields_without_sep (sep : ascii) (s : string) :
  Forall (fun field => count_char sep field = 0) (PyStr.split sep s).
Proof.
  induction s as [| c s IH]; simpl.
  - repeat constructor.
  - destruct (Ascii.eqb c sep) eqn:Ec.
    + constructor; [reflexivity | exact IH].
    + destruct (PyStr.split sep s) as [| f fs].
      * repeat constructor. simpl. now rewrite Ec.
      * inversion IH; subst. constructor; [| assumption]. simpl. now rewrite Ec.
Qed.

Lemma split_without_sep (sep : ascii) (s : string) :
  count_char sep s = 0 -> PyStr.split sep s = [s].
Proof.
  induction s as [| c s IH]; simpl; [reflexivity |].
  destruct (Ascii.eqb c sep); [discriminate |].
  intros H. now rewrite (IH H).
Qed.

Lemma split_app_sep (sep : ascii) (s t : string) :
  PyStr.split sep (s ++ String sep t) = (PyStr.split sep s ++ PyStr.split sep t)%list.
Proof.
  induction s as [| c s IH]; simpl.
  - now rewrite Ascii.eqb_refl.
  - destruct (Ascii.eqb c sep); rewrite IH.
    + reflexivity.
    + destruct (PyStr.split sep s) as [| f fs] eqn:E; [| reflexivity].
      exfalso. exact (split_nonempty sep s E).
Qed.

(** ** The identification *)

(** X4. [id] answers exactly when the stripped reply holds three commas or
    more: it then hands back, unchanged, the first four of the pieces
    between commas, which joined by commas with the pieces left out give the
    stripped reply back; with fewer commas it raises the IndexError of list
    indexing.  A piece is not stripped again and pieces after the fourth are
    dropped without a word. *)
Theorem id_first_four_fields
  (w : env) (history : list io) (reply : string)
  (Hreply : w history (Query "*IDN?") = Ok reply) :
  (3 <= count_char "," (PyStr.strip reply) ->
   exists manufacturer model serial_number version rest,
     run w DP832.id history =
     (Ok [("manufacturer", manufacturer); ("model", model);
          ("serial_number", serial_number); ("version", version)],
      (history ++ [Query "*IDN?"])%list)
     /\ PyStr.join "," (manufacturer :: model :: serial_number :: version :: rest)
        = PyStr.strip reply
     /\ Forall (fun field => count_char "," field = 0)
          (manufacturer :: model :: serial_number :: version :: rest))
  /\ (count_char "," (PyStr.strip reply) < 3 ->
      run w DP832.id history = (Raise index_error, (history ++ [Query "*IDN?"])%list)).
Proof.
  pose proof (split_length "," (PyStr.strip reply)) as Hlen.
  pose proof (join_split "," (PyStr.strip reply)) as Hjoin.
  pose proof (split_fields_without_sep "," (PyStr.strip reply)) as Hfields.
  unfold DP832.id. rewrite run_query, Hreply.
  destruct (PyStr.split "," (PyStr.strip reply))
    as [| f0 [| f1 [| f2 [| f3 rest]]]]; simpl in Hlen; split; intros Hn; try lia;
    try reflexivity.
  exists f0, f1, f2, f3, rest. split; [reflexivity |]. now split.
Qed.

Lemma id_first_four_fields_witness :
  3 <= count_char "," (PyStr.strip " RIGOL TECHNOLOGIES,DP832,DP8C1,00.01.14,extra ")
  /\ fst (run (answering " RIGOL TECHNOLOGIES,DP832,DP8C1,00.01.14,extra ") DP832.id [])
     = Ok [("manufacturer", "RIGOL TECHNOLOGIES"); ("model", "DP832");
           ("serial_number", "DP8C1"); ("version", "00.01.14")].
Proof.
  assert (Hn : 3 <= count_char "," (PyStr.strip " RIGOL TECHNOLOGIES,DP832,DP8C1,00.01.14,extra "))
    by (simpl; lia).
  split; [exact Hn |].
  destruct (id_first_four_fields (answering " RIGOL TECHNOLOGIES,DP832,DP8C1,00.01.14,extra ")
              [] " RIGOL TECHNOLOGIES,DP832,DP8C1,00.01.14,extra " eq_refl)
    as [Hok _].
  destruct (Hok Hn) as (m & mo & sn & v & rest & Hrun & _ & _).
  pose proof Hrun as Hvalues. vm_compute in Hvalues.
  inversion Hvalues; subst. rewrite Hrun. reflexivity.
Defined.

(** ** The three fan-outs *)

Lemma dict_comprehension_run {V : Type} (method : Z -> prog V) (cmd : Z -> string) :
  (forall key, In key [1; 2; 3]%Z -> one_query (method key) (cmd key)) ->
  fans_out method cmd (dict_comprehension method [1; 2; 3]%Z).
Proof.
  intros Hone w history. cbv zeta. cbn [dict_comprehension].
  rewrite run_bind.
  destruct (Hone 1%Z (or_introl eq_refl) w history) as [Hlog1 _].
  destruct (run w (method 1%Z) history) as [[v1 | e1] h1]; simpl in Hlog1; subst h1;
    [| reflexivity].
  cbn [fst]. rewrite run_bind, run_bind.
  destruct (Hone 2%Z (or_intror (or_introl eq_refl)) w
              (history ++ [Query (cmd 1%Z)])%list) as [Hlog2 _].
  destruct (run w (method 2%Z) (history ++ [Query (cmd 1%Z)])%list)
    as [[v2 | e2] h2]; simpl in Hlog2; subst h2; [| reflexivity].
  cbn [fst]. rewrite run_bind, run_bind.
  destruct (Hone 3%Z (or_intror (or_intror (or_introl eq_refl))) w
              ((history ++ [Query (cmd 1%Z)]) ++ [Query (cmd 2%Z)])%list) as [Hlog3 _].
  destruct (run w (method 3%Z) ((history ++ [Query (cmd 1%Z)]) ++ [Query (cmd 2%Z)])%list)
    as [[v3 | e3] h3]; simpl in Hlog3; subst h3; reflexivity.
Qed.

(** X5. Each of [get_all_output_states], [get_all_settings] and
    [get_all_measurements] reads the channels 1, 2, 3 in this order, one
    query each, and stops at the first channel whose reading fails: it fails
    with the exception of that channel's reading, the queries asked are those
    of the channels up to it and none after it, and no partial dict is
    answered; when the three readings answer, the dict holds their values
    under the keys 1, 2, 3 in this order and the three queries were asked. *)
Theorem fan_outs_stop_at_first_failure (F : PyFloat) :
  fans_out DP832.get_output_state (fun channel => ":OUTP:STAT? " ++ DP832.CH channel)
    DP832.get_all_output_states
  /\ fans_out DP832.get_channel_settings (fun channel => ":APPL? " ++ DP832.CH channel)
       DP832.get_all_settings
  /\ fans_out DP832.measure_all (fun channel => ":MEAS:ALL? " ++ DP832.CH channel)
       DP832.get_all_measurements.
Proof.
  assert (Hvalid : forall key, In key [1; 2; 3]%Z -> In key valid_channels)
    by (intros key Hkey; exact Hkey).
  split; [| split]; apply dict_comprehension_run; intros key Hkey.
  - exact (proj1 (proj2 (readers_query_once_all F key (Hvalid key Hkey)))).
  - exact (proj1 (proj2 (proj2 (readers_query_once_all F key (Hvalid key Hkey))))).
  - exact (proj1 (proj2 (proj2 (proj2 (proj2 (proj2 (proj2
             (readers_query_once_all F key (Hvalid key Hkey))))))))).
Qed.

(** The second channel's query times out: the first two queries are asked,
    the third is not, and the time-out is the failure of the fan-out; a
    second channel answering text that is no float stops it the same way. *)
Lemma fan_outs_stop_at_first_failure_witness :
  run (breaking (fun e => match e with
                          | Query cmd => String.eqb cmd ":APPL? CH2"
                          | _ => false
                          end) (answering "5.0,1.0"))
      (DP832.get_all_settings (F := DecimalFloat.decimal_float)) []
  = (Raise visa_error, [Query ":APPL? CH1"; Query ":APPL? CH2"])
  /\ run (fun history e =>
            match e return resp e with
            | Query cmd => if String.eqb cmd ":MEAS:ALL? CH2" then Ok "oops"
                           else Ok "5.0,1.0,5.0"
            | other => answering "" history other
            end)
         (DP832.get_all_measurements (F := DecimalFloat.decimal_float)) []
     = (Raise (Exn ValueError "could not convert string to float: 'oops'"),
        [Query ":MEAS:ALL? CH1"; Query ":MEAS:ALL? CH2"]).
Proof.
  destruct (fan_outs_stop_at_first_failure DecimalFloat.decimal_float)
    as (_ & Hsettings & Hmeasurements).
  split.
  - exact (Hsettings _ []).
  - exact (Hmeasurements _ []).
Defined.

(** X6. When the three state queries are answered, [get_all_output_states]
    pairs each channel with the reading of its own reply, in the order 1, 2,
    3: true for a stripped reply ON, false for anything else. *)
Theorem all_output_states_pairs_channels
  (w : env) (history : list io) (reply1 reply2 reply3 : string)
  (H1 : w history (Query ":OUTP:STAT? CH1") = Ok reply1)
  (H2 : w (history ++ [Query ":OUTP:STAT? CH1"])%list (Query ":OUTP:STAT? CH2") = Ok reply2)
  (H3 : w ((history ++ [Query ":OUTP:STAT? CH1"]) ++ [Query ":OUTP:STAT? CH2"])%list
          (Query ":OUTP:STAT? CH3") = Ok reply3) :
  run w DP832.get_all_output_states history =
  (Ok [(1%Z, String.eqb (PyStr.strip reply1) "ON");
       (2%Z, String.eqb (PyStr.strip reply2) "ON");
       (3%Z, String.eqb (PyStr.strip reply3) "ON")],
   (((history ++ [Query ":OUTP:STAT? CH1"]) ++ [Query ":OUTP:STAT? CH2"])
      ++ [Query ":OUTP:STAT? CH3"])%list).
Proof.
  change ":OUTP:STAT? CH1" with (":OUTP:STAT? " ++ DP832.CH 1) in *.
  change ":OUTP:STAT? CH2" with (":OUTP:STAT? " ++ DP832.CH 2) in *.
  change ":OUTP:STAT? CH3" with (":OUTP:STAT? " ++ DP832.CH 3) in *.
  assert (V1 : In 1%Z valid_channels) by (unfold valid_channels; simpl; auto).
  assert (V2 : In 2%Z valid_channels) by (unfold valid_channels; simpl; auto).
  assert (V3 : In 3%Z valid_channels) by (unfold valid_channels; simpl; auto).
  unfold DP832.get_all_output_states. cbn [dict_comprehension].
  unfold DP832.get_output_state.
  rewrite run_bind, (validate_ok 1 V1), bind_ret_l, run_query, H1. cbn [run].
  rewrite run_bind, run_bind, (validate_ok 2 V2), bind_ret_l, run_query, H2. cbn [run].
  rewrite run_bind, run_bind, (validate_ok 3 V3), bind_ret_l, run_query, H3. cbn [run].
  reflexivity.
Qed.

Lemma all_output_states_pairs_channels_witness :
  fst (run (answering "OFF") DP832.get_all_output_states [])
  = Ok [(1%Z, false); (2%Z, false); (3%Z, false)].
Proof.
  rewrite (all_output_states_pairs_channels (answering "OFF") [] "OFF" "OFF" "OFF"
             eq_refl eq_refl eq_refl).
  reflexivity.
Defined.

(** ** Opening and closing the session *)

Lemma run_with_exit {A : Type} (w : env) (body : prog A) (exit : prog unit) :
  forall history,
    run w (with_exit body exit) history =
    match run w body history with
    | (outcome, h1) =>
        match run w exit h1 with
        | (Ok _, h2) => (outcome, h2)
        | (Raise e, h2) => (Raise e, h2)
        end
    end.
Proof.
  induction body as [a | e | e k IH]; intros history; simpl.
  - rewrite run_bind. destruct (run w exit history) as [[[] | e] h]; reflexivity.
  - rewrite run_bind. destruct (run w exit history) as [[[] | e'] h]; reflexivity.
  - apply IH.
Qed.

(** X7. [close] closes the session first and the resource manager second,
    each only when the object has it; when closing the session raises, the
    resource manager is left open and the exception goes to the caller. *)
Theorem close_stops_at_first_failure (w : env) (history : list io) (self : DP832.instance) :
  (DP832.has_inst self = false -> DP832.has_rm self = false ->
   run w (DP832.close self) history = (Ok tt, history))
  /\ (DP832.has_inst self = false -> DP832.has_rm self = true ->
      run w (DP832.close self) history
      = (w history RmClose, (history ++ [RmClose])%list))
  /\ (DP832.has_inst self = true ->
      forall e, w history InstClose = Raise e ->
      run w (DP832.close self) history = (Raise e, (history ++ [InstClose])%list))
  /\ (DP832.has_inst self = true -> DP832.has_rm self = true ->
      w history InstClose = Ok tt ->
      run w (DP832.close self) history
      = (w (history ++ [InstClose])%list RmClose,
         ((history ++ [InstClose]) ++ [RmClose])%list)).
Proof.
  unfold DP832.close.
  split; [| split; [| split]].
  - intros -> ->. reflexivity.
  - intros -> ->. simpl. apply run_lift.
  - intros -> e He. simpl. rewrite He. reflexivity.
  - intros -> -> Hok. simpl. rewrite Hok. simpl. apply run_lift.
Qed.

(** X8. When the constructor fails nothing is cleaned up and the block of a
    [with] never starts: a failure of [ResourceManager()] is the only call
    made, and after a failure of [open_resource] the resource manager just
    created is not closed. *)
Theorem failed_constructor_closes_nothing
  {A : Type} (w : env) (history : list io)
  (ip_address : string) (port timeout : Z) (body : DP832.instance -> prog A) :
  let resource :=
    "TCPIP0::" ++ ip_address ++ "::" ++ PyStr.str_int port ++ "::SOCKET" in
  (forall e, w history ResourceManager = Raise e ->
             run w (DP832.with_DP832 ip_address port timeout body) history
             = (Raise e, (history ++ [ResourceManager])%list))
  /\ (forall e,
        w history ResourceManager = Ok tt ->
        w (history ++ [ResourceManager])%list (OpenResource resource timeout) = Raise e ->
        run w (DP832.with_DP832 ip_address port timeout body) history
        = (Raise e,
           ((history ++ [ResourceManager]) ++ [OpenResource resource timeout])%list)).
Proof.
  intros resource. unfold DP832.with_DP832, DP832.__init__. fold resource. split.
  - intros e He. simpl. rewrite He. reflexivity.
  - intros e Hrm He. simpl. rewrite Hrm. simpl. rewrite He. reflexivity.
Qed.

(** X9. Once the constructor has succeeded, the block of a [with] is always
    followed by [close]: the session is closed after the last call of the
    block whether the block ended on a value or on an exception.  When both
    closes succeed the block's own outcome is the outcome of the whole; an
    exception of a close replaces it. *)
Theorem with_block_always_closes
  {A : Type} (w : env) (history : list io)
  (ip_address : string) (port timeout : Z) (body : DP832.instance -> prog A)
  (outcome : result A) (h1 : list io) :
  let resource :=
    "TCPIP0::" ++ ip_address ++ "::" ++ PyStr.str_int port ++ "::SOCKET" in
  let opened := ((history ++ [ResourceManager]) ++ [OpenResource resource timeout])%list in
  let ps := DP832.Instance_ ip_address port timeout resource true true in
  w history ResourceManager = Ok tt ->
  w (history ++ [ResourceManager])%list (OpenResource resource timeout) = Ok tt ->
  run w (body ps) opened = (outcome, h1) ->
  (w h1 InstClose = Ok tt -> w (h1 ++ [InstClose])%list RmClose = Ok tt ->
   run w (DP832.with_DP832 ip_address port timeout body) history
   = (outcome, ((h1 ++ [InstClose]) ++ [RmClose])%list))
  /\ (forall e, w h1 InstClose = Raise e ->
      run w (DP832.with_DP832 ip_address port timeout body) history
      = (Raise e, (h1 ++ [InstClose])%list))
  /\ (forall e, w h1 InstClose = Ok tt -> w (h1 ++ [InstClose])%list RmClose = Raise e ->
      run w (DP832.with_DP832 ip_address port timeout body) history
      = (Raise e, ((h1 ++ [InstClose]) ++ [RmClose])%list)).
Proof.
  intros resource opened ps Hrm Hopen Hbody.
  assert (Hrun : run w (DP832.with_DP832 ip_address port timeout body) history
                 = match run w (DP832.close ps) h1 with
                   | (Ok _, h2) => (outcome, h2)
                   | (Raise e, h2) => (Raise e, h2)
                   end).
  { unfold DP832.with_DP832, DP832.__init__. fold resource. simpl.
    rewrite Hrm. simpl. rewrite Hopen. simpl.
    fold ps. unfold DP832.__exit__. rewrite run_with_exit.
    change ((history ++ [ResourceManager]) ++ [OpenResource resource timeout])%list
      with opened.
    now rewrite Hbody. }
  rewrite Hrun. unfold DP832.close, ps. simpl.
  split; [| split].
  - intros H1 H2. rewrite H1. simpl. rewrite H2. reflexivity.
  - intros e H1. rewrite H1. reflexivity.
  - intros e H1 H2. rewrite H1. simpl. rewrite H2. reflexivity.
Qed.

(** ** Numbers in commands and addresses *)

Lemma to_int_not_nil (n : Z) :
  Z.to_int n <> Decimal.Pos Decimal.Nil /\ Z.to_int n <> Decimal.Neg Decimal.Nil.
Proof.
  destruct n as [| p | p]; simpl; split; try discriminate;
    intros E; inversion E as [E'];
    exact (DecimalPos.Unsigned.to_uint_nonnil p E').
Qed.

(** The decimal text of an integer tells the integer. *)
Lemma str_int_inj (a b : Z) : PyStr.str_int a = PyStr.str_int b -> a = b.
Proof.
  unfold PyStr.str_int. intros E.
  apply DecimalZ.to_int_inj.
  destruct (to_int_not_nil a) as [Ha1 Ha2], (to_int_not_nil b) as [Hb1 Hb2].
  pose proof (NilZero.isi (Z.to_int a) Ha1 Ha2) as Ia.
  pose proof (NilZero.isi (Z.to_int b) Hb1 Hb2) as Ib.
  rewrite E in Ia. rewrite Ia in Ib. now inversion Ib.
Qed.

Lemma uint_text_without_dot (d : Decimal.uint) :
  count_char "." (NilEmpty.string_of_uint d) = 0.
Proof. induction d; simpl; auto. Qed.

Lemma str_int_without_dot (n : Z) : count_char "." (PyStr.str_int n) = 0.
Proof.
  unfold PyStr.str_int, NilZero.string_of_int, NilZero.string_of_uint.
  destruct (Z.to_int n) as [d | d]; destruct d; simpl;
    try reflexivity; apply uint_text_without_dot.
Qed.

Lemma append_inj_l (s t u : string) : s ++ t = s ++ u -> t = u.
Proof.
  induction s as [| c s IH]; simpl; intros E; [exact E |].
  inversion E. now apply IH.
Qed.

Lemma swept_NoDup (base : string) : NoDup (swept base).
Proof.
  unfold swept. apply Finite.Injective_map_NoDup; [| apply seq_NoDup].
  intros i j E. apply append_inj_l in E. simpl in E. inversion E as [E'].
  apply str_int_inj in E'. now apply Nat2Z.inj.
Qed.

(** ** The network base *)

(** X10. [get_local_network] raises nothing.  It answers the local address
    without its last dotted component, the empty string for an address
    without a dot, and 192.168.1 when the socket fails.  Every address the
    scan builds from a base, [base.1] to [base.254], gives that base
    back. *)
Theorem local_network_drops_last_component (w : env) (history : list io) :
  (forall e, w history LocalAddress = Raise e ->
             run w Discovery.get_local_network history
             = (Ok "192.168.1", (history ++ [LocalAddress])%list))
  /\ (forall base last,
        count_char "." last = 0 ->
        w history LocalAddress = Ok (base ++ "." ++ last) ->
        run w Discovery.get_local_network history
        = (Ok base, (history ++ [LocalAddress])%list))
  /\ (forall address,
        count_char "." address = 0 ->
        w history LocalAddress = Ok address ->
        run w Discovery.get_local_network history
        = (Ok "", (history ++ [LocalAddress])%list))
  /\ (forall base address,
        In address (swept base) ->
        w history LocalAddress = Ok address ->
        run w Discovery.get_local_network history
        = (Ok base, (history ++ [LocalAddress])%list)).
Proof.
  assert (Hlast : forall base last,
             count_char "." last = 0 ->
             w history LocalAddress = Ok (base ++ "." ++ last) ->
             run w Discovery.get_local_network history
             = (Ok base, (history ++ [LocalAddress])%list)).
  { intros base last Hdot E. unfold Discovery.get_local_network. simpl.
    rewrite E. simpl.
    rewrite split_app_sep, (split_without_sep "." last Hdot), removelast_last.
    now rewrite join_split. }
  split; [| split; [exact Hlast | split]].
  - intros e E. unfold Discovery.get_local_network. simpl. rewrite E. reflexivity.
  - intros address Hdot E. unfold Discovery.get_local_network. simpl.
    rewrite E. simpl. now rewrite (split_without_sep "." address Hdot).
  - intros base address Hin E. unfold swept in Hin.
    apply in_map_iff in Hin as [i [<- _]].
    apply (Hlast base (PyStr.str_int (Z.of_nat i))); [| exact E].
    apply str_int_without_dot.
Qed.

Lemma local_network_drops_last_component_witness :
  run (answering "") Discovery.get_local_network [] = (Ok "192.168.1", [LocalAddress]).
Proof.
  destruct (local_network_drops_last_component (answering "") []) as (_ & Hlast & _).
  exact (Hlast "192.168.1" "23" eq_refl eq_refl).
Defined.

(** ** Subsequences *)

Lemma subsequence_refl {A : Type} (l : list A) : subsequence l l.
Proof. induction l; constructor; assumption. Qed.

Lemma subsequence_nil_l {A : Type} (l : list A) : subsequence [] l.
Proof. induction l; constructor; assumption. Qed.

Lemma subsequence_In {A : Type} (l l' : list A) :
  subsequence l l' -> forall x, In x l -> In x l'.
Proof.
  induction 1 as [| y l l' _ IH | y l l' _ IH]; intros x Hx.
  - exact Hx.
  - right. now apply IH.
  - destruct Hx as [-> | Hx]; [now left | right; now apply IH].
Qed.

Lemma subsequence_trans {A : Type} (l1 l2 l3 : list A) :
  subsequence l1 l2 -> subsequence l2 l3 -> subsequence l1 l3.
Proof.
  intros H12 H23. revert l1 H12.
  induction H23 as [| y l2 l3 _ IH | y l2 l3 _ IH]; intros l1 H12.
  - exact H12.
  - constructor. now apply IH.
  - inversion H12; subst.
    + constructor. now apply IH.
    + apply subsequence_keep. now apply IH.
Qed.

Lemma subsequence_NoDup {A : Type} (l l' : list A) :
  subsequence l l' -> NoDup l' -> NoDup l.
Proof.
  induction 1 as [| y l l' Hs IH | y l l' Hs IH]; intros Hnd.
  - exact Hnd.
  - inversion Hnd; subst. now apply IH.
  - inversion Hnd; subst. constructor; [| now apply IH].
    intros Hin. apply H1. exact (subsequence_In l l' Hs y Hin).
Qed.

(** ** The sweep *)

Lemma sweep_run (w : env) (completed : list string) :
  forall responsive_ips history,
  exists found,
    run w (Discovery.sweep completed responsive_ips) history
    = (Ok (responsive_ips ++ found)%list, (history ++ map Ping completed)%list)
    /\ subsequence found completed
    /\ (forall alive,
          (forall h ip, ping_succeeded (w h (Ping ip)) = alive ip) ->
          found = filter alive completed).
Proof.
  induction completed as [| ip rest IH]; intros responsive_ips history;
    cbn [Discovery.sweep].
  - exists []. simpl. rewrite !app_nil_r.
    split; [reflexivity |]. split; [constructor | reflexivity].
  - rewrite run_bind, ping_ip_run.
    change (match w history (Ping ip) with
            | Ok returncode => Z.eqb returncode 0
            | Raise _ => false
            end) with (ping_succeeded (w history (Ping ip))).
    destruct (ping_succeeded (w history (Ping ip))) eqn:Ealive.
    + destruct (IH (responsive_ips ++ [ip])%list (history ++ [Ping ip])%list)
        as [found [Hrun [Hsub Hfilter]]].
      exists (ip :: found). rewrite Hrun, <- !app_assoc. simpl.
      split; [reflexivity |]. split; [now constructor |].
      intros alive Halive. rewrite <- (Halive history ip), Ealive.
      now rewrite (Hfilter alive Halive).
    + destruct (IH responsive_ips (history ++ [Ping ip])%list)
        as [found [Hrun [Hsub Hfilter]]].
      exists found. rewrite Hrun, <- !app_assoc. simpl.
      split; [reflexivity |]. split; [now constructor |].
      intros alive Halive. rewrite <- (Halive history ip), Ealive.
      exact (Hfilter alive Halive).
Qed.



(** ** What the scan reports *)

Lemma isspace_upper_char (c : ascii) :
  PyStr.isspace (PyStr.upper_char c) = PyStr.isspace c.
Proof. destruct c as [[] [] [] [] [] [] [] []]; reflexivity. Qed.

Lemma all_space_upper (s : string) : all_space (PyStr.upper s) = all_space s.
Proof.
  induction s as [| c s IH]; simpl; [reflexivity |].
  now rewrite isspace_upper_char, IH.
Qed.

(** A reply that identifies does not strip to the empty string. *)
Lemma identifies_nonempty (models : list string) (reply : string) :
  identifies models reply = true -> PyStr.strip reply <> "".
Proof.
  unfold identifies. intros H E. apply andb_true_iff in H as [Hvendor _].
  apply strip_empty in E. rewrite <- all_space_upper in E.
  apply contains_app in Hvendor as [before [after Hup]].
  rewrite Hup, all_space_app in E.
  apply andb_true_iff in E as [_ E]. discriminate E.
Qed.

Lemma classified_reported (w : env) (ip : string) (port : Z) history d h' :
  run w (Discovery.test_dp832_connection ip port) history = (Ok (Some d), h') ->
  reported_device (ip, d).
Proof.
  rewrite discovery_probe_run. unfold classified.
  destruct (run w (session true ip port) history) as [[reply | e] h]; [| discriminate].
  destruct (identifies ["DP832"] reply) eqn:Hid; [| discriminate].
  intros E. inversion E; subst. split; simpl.
  - exact (identifies_nonempty _ _ Hid).
  - now exists reply.
Qed.

Lemma reported_truthy (device : string * string) :
  reported_device device -> truthy (Some (snd device)) = true.
Proof.
  intros [Hne _]. simpl. apply negb_true_iff. now apply String.eqb_neq.
Qed.

Lemma probe_run (w : env) (port : Z) (responsive_ips : list string) :
  forall dp832_devices history devices h',
    run w (Discovery.probe port responsive_ips dp832_devices) history = (Ok devices, h') ->
    exists found,
      devices = (dp832_devices ++ found)%list
      /\ subsequence (map fst found) responsive_ips
      /\ Forall reported_device found.
Proof.
  induction responsive_ips as [| ip rest IH]; intros dp832_devices history devices h';
    cbn [Discovery.probe].
  - simpl. intros E. inversion E; subst. exists []. rewrite app_nil_r.
    repeat split; constructor.
  - rewrite run_bind.
    destruct (run w (Discovery.test_dp832_connection ip port) history)
      as [[[d |] | e] h1] eqn:Eprobe; [| | discriminate].
    + pose proof (classified_reported w ip port history d h1 Eprobe) as Hrep.
      pose proof (reported_truthy (ip, d) Hrep) as Htruthy. simpl snd in Htruthy.
      rewrite Htruthy.
      intros E. destruct (IH _ _ _ _ E) as [found [Hdev [Hsub Hall]]].
      exists ((ip, d) :: found). rewrite Hdev, <- app_assoc. simpl.
      split; [reflexivity |]. split; [now constructor | now constructor].
    + intros E. destruct (IH _ _ _ _ E) as [found [Hdev [Hsub Hall]]].
      exists found. split; [exact Hdev |]. split; [now constructor | exact Hall].
Qed.

(** What [find_dp832_devices] does, phase by phase. *)
Lemma scan_phases (w : env) (network_base : option string) (port : Z) history :
  exists base h1 responsive_ips,
    (forall b, network_base = Some b -> base = b /\ h1 = history)
    /\ (network_base = None ->
        run w Discovery.get_local_network history = (Ok base, h1))
    /\ subsequence responsive_ips (w h1 (AsCompleted (swept base)))
    /\ (no_host_responds w -> responsive_ips = [])
    /\ (forall alive,
          (forall h ip, ping_succeeded (w h (Ping ip)) = alive ip) ->
          responsive_ips = filter alive (w h1 (AsCompleted (swept base))))
    /\ run w (Discovery.find_dp832_devices network_base port) history
       = match responsive_ips with
         | [] => (Ok [], ((h1 ++ [AsCompleted (swept base)])
                            ++ map Ping (w h1 (AsCompleted (swept base))))%list)
         | _ => run w (Discovery.probe port responsive_ips [])
                  ((h1 ++ [AsCompleted (swept base)])
                     ++ map Ping (w h1 (AsCompleted (swept base))))%list
         end.
Proof.
  unfold Discovery.find_dp832_devices. rewrite run_bind.
  assert (Hbase : exists base h1,
             run w match network_base with
                   | None => Discovery.get_local_network
                   | Some base => Ret base
                   end history = (Ok base, h1)
             /\ (forall b, network_base = Some b -> base = b /\ h1 = history)
             /\ (network_base = None ->
                 run w Discovery.get_local_network history = (Ok base, h1))).
  { destruct network_base as [b |].
    - exists b, history. split; [reflexivity |]. split; [| discriminate].
      intros b' E. now inversion E.
    - destruct (get_local_network_total w history) as [base [h1 E]].
      exists base, h1. split; [exact E |]. split; [discriminate | now intros _]. }
  destruct Hbase as [base [h1 [Hrun [Hsome Hnone]]]]. rewrite Hrun.
  change (map (fun i => base ++ "." ++ PyStr.str_int (Z.of_nat i)) (seq 1 254))
    with (swept base).
  cbn [bind run]. rewrite run_bind.
  destruct (sweep_run w (w h1 (AsCompleted (swept base))) []
              (h1 ++ [AsCompleted (swept base)])%list)
    as [responsive_ips [Hsweep [Hsub Hfilter]]].
  exists base, h1, responsive_ips. rewrite Hsweep. simpl app.
  split; [exact Hsome |]. split; [exact Hnone |]. split; [exact Hsub |].
  split; [| split; [exact Hfilter | destruct responsive_ips; reflexivity]].
  intros Hquiet.
  destruct (sweep_nothing w Hquiet (w h1 (AsCompleted (swept base))) []
              (h1 ++ [AsCompleted (swept base)])%list) as [h2 Hnothing].
  rewrite Hsweep in Hnothing. now inversion Hnothing.
Qed.

(** X12. Every device [find_dp832_devices] reports carries a non-empty
    identification, the stripped text of a reply holding RIGOL and DP832, and
    the addresses reported follow the completion order of the sweep, each
    one an address of that order. *)
Theorem scan_reports_matches_in_completion_order
  (w : env) (network_base : option string) (port : Z) (history : list io)
  (devices : list (string * string)) (h' : list io)
  (Hrun : run w (Discovery.find_dp832_devices network_base port) history = (Ok devices, h')) :
  Forall reported_device devices
  /\ exists base h1,
       (forall b, network_base = Some b -> base = b /\ h1 = history)
       /\ (network_base = None ->
           run w Discovery.get_local_network history = (Ok base, h1))
       /\ subsequence (map fst devices) (w h1 (AsCompleted (swept base))).
Proof.
  destruct (scan_phases w network_base port history)
    as [base [h1 [responsive_ips [Hsome [Hnone [Hsub [_ [_ Hscan]]]]]]]].
  rewrite Hscan in Hrun.
  assert (Hfound : Forall reported_device devices
                   /\ subsequence (map fst devices) responsive_ips).
  { destruct responsive_ips as [| ip rest].
    - inversion Hrun; subst. split; constructor.
    - destruct (probe_run w port _ _ _ _ _ Hrun) as [found [-> [Hs Hall]]].
      now split. }
  destruct Hfound as [Hall Hs]. split; [exact Hall |].
  exists base, h1. split; [exact Hsome |]. split; [exact Hnone |].
  exact (subsequence_trans _ _ _ Hs Hsub).
Qed.

(** X13. When the pool hands back every future once, no address is reported
    twice and every address reported is one of [base.1] to [base.254]. *)
Theorem scan_reports_each_address_once
  (w : env) (base : string) (port : Z) (history : list io)
  (devices : list (string * string)) (h' : list io)
  (Hpool : completes_each_once w)
  (Hrun : run w (Discovery.find_dp832_devices (Some base) port) history = (Ok devices, h')) :
  NoDup (map fst devices)
  /\ forall ip, In ip (map fst devices) ->
                exists i, 1 <= i <= 254 /\ ip = base ++ "." ++ PyStr.str_int (Z.of_nat i).
Proof.
  destruct (scan_phases w (Some base) port history)
    as [base' [h1 [responsive_ips [Hsome [_ [Hsub [_ [_ Hscan]]]]]]]].
  destruct (Hsome base eq_refl) as [-> ->].
  rewrite Hscan in Hrun.
  assert (Hs : subsequence (map fst devices) (w history (AsCompleted (swept base)))).
  { apply (subsequence_trans _ responsive_ips); [| exact Hsub].
    destruct responsive_ips as [| ip rest].
    - inversion Hrun; subst. constructor.
    - destruct (probe_run w port _ _ _ _ _ Hrun) as [found [-> [Hs _]]]. exact Hs. }
  pose proof (Hpool history (swept base)) as Hperm.
  split.
  - apply (subsequence_NoDup _ _ Hs).
    apply (Permutation_NoDup (Permutation_sym Hperm)), swept_NoDup.
  - intros ip Hin.
    apply (subsequence_In _ _ Hs) in Hin.
    apply (Permutation_in _ Hperm) in Hin.
    unfold swept in Hin. apply in_map_iff in Hin as [i [<- Hi]].
    apply in_seq in Hi. exists i. split; [lia | reflexivity].
Qed.

(** X14. The truth test on the answer of the probe never loses a match: a
    host whose probe answers an identification is added to the devices and
    the loop goes on with the next host. *)
Theorem probe_keeps_every_match
  (w : env) (port : Z) (ip : string) (rest : list string)
  (dp832_devices : list (string * string)) (history h1 : list io) (d : string)
  (Hprobe : run w (Discovery.test_dp832_connection ip port) history = (Ok (Some d), h1)) :
  run w (Discovery.probe port (ip :: rest) dp832_devices) history
  = run w (Discovery.probe port rest (dp832_devices ++ [(ip, d)])%list) h1.
Proof.
  cbn [Discovery.probe]. rewrite run_bind, Hprobe.
  pose proof (reported_truthy (ip, d) (classified_reported w ip port history d h1 Hprobe))
    as Htruthy.
  simpl snd in Htruthy. now rewrite Htruthy.
Qed.

(** X15. When no host answers the ping, the scan calls the pool and the
    pings and nothing else: no VISA session is opened. *)
Theorem silent_network_opens_no_session
  (w : env) (base : string) (port : Z) (history : list io)
  (Hnone : no_host_responds w) :
  run w (Discovery.find_dp832_devices (Some base) port) history
  = (Ok [], ((history ++ [AsCompleted (swept base)])
               ++ map Ping (w history (AsCompleted (swept base))))%list).
Proof.
  destruct (scan_phases w (Some base) port history)
    as [base' [h1 [responsive_ips [Hsome [_ [_ [Hquiet [_ Hscan]]]]]]]].
  destruct (Hsome base eq_refl) as [-> ->].
  rewrite Hscan, (Hquiet Hnone). reflexivity.
Qed.

Lemma lab_completes_each_once : completes_each_once lab.
Proof. intros history ips. apply Permutation_refl. Qed.

Lemma lab_scan :
  exists h',
    run lab (Discovery.find_dp832_devices (Some "10.0.0") 5555) []
    = (Ok [("10.0.0.20", matching_id)], h').
Proof. eexists. vm_compute. reflexivity. Qed.

Lemma scan_reports_matches_in_completion_order_witness :
  fst (run lab (Discovery.find_dp832_devices (Some "10.0.0") 5555) [])
  = Ok [("10.0.0.20", matching_id)]
  /\ Forall reported_device [("10.0.0.20", matching_id)].
Proof.
  destruct lab_scan as [h' Hrun].
  split; [now rewrite Hrun |].
  exact (proj1 (scan_reports_matches_in_completion_order lab (Some "10.0.0") 5555 []
                  [("10.0.0.20", matching_id)] h' Hrun)).
Defined.

Lemma scan_reports_each_address_once_witness :
  completes_each_once lab
  /\ exists i, 1 <= i <= 254 /\ "10.0.0.20" = "10.0.0" ++ "." ++ PyStr.str_int (Z.of_nat i).
Proof.
  split; [exact lab_completes_each_once |].
  destruct lab_scan as [h' Hrun].
  destruct (scan_reports_each_address_once lab "10.0.0" 5555 []
              [("10.0.0.20", matching_id)] h' lab_completes_each_once Hrun)
    as [_ Hrange].
  apply Hrange. simpl. now left.
Defined.

Lemma probe_keeps_every_match_witness :
  fst (run lab (Discovery.probe 5555 ["10.0.0.20"; "10.0.0.10"] []) [])
  = Ok [("10.0.0.20", matching_id)].
Proof.
  assert (Hprobe : exists h1,
             run lab (Discovery.test_dp832_connection "10.0.0.20" 5555) []
             = (Ok (Some matching_id), h1))
    by (eexists; vm_compute; reflexivity).
  destruct Hprobe as [h1 Hprobe].
  rewrite (probe_keeps_every_match lab 5555 "10.0.0.20" ["10.0.0.10"] [] [] h1
             matching_id Hprobe).
  pose proof Hprobe as Hh1. vm_compute in Hh1. inversion Hh1; subst h1.
  vm_compute. reflexivity.
Defined.

Lemma silent_network_opens_no_session_witness :
  no_host_responds (answering "")
  /\ fst (run (answering "") (Discovery.find_dp832_devices (Some "10.0.0") 5555) []) = Ok [].
Proof.
  assert (Hnone : no_host_responds (answering "")).
  { intros history ip. simpl. discriminate. }
  split; [exact Hnone |].
  now rewrite (silent_network_opens_no_session (answering "") "10.0.0" 5555 [] Hnone).
Defined.

Lemma with_block_always_closes_witness :
  run (answering "ON") (DP832.with_DP832 "10.0.0.20" 5555 5000
                          (fun _ => DP832.get_output_state 1)) []
  = (Ok true,
     [ResourceManager; OpenResource "TCPIP0::10.0.0.20::5555::SOCKET" 5000;
      Query ":OUTP:STAT? CH1"; InstClose; RmClose]).
Proof.
  destruct (with_block_always_closes (answering "ON") [] "10.0.0.20" 5555 5000
              (fun _ => DP832.get_output_state 1) (Ok true)
              [ResourceManager; OpenResource "TCPIP0::10.0.0.20::5555::SOCKET" 5000;
               Query ":OUTP:STAT? CH1"]
              eq_refl eq_refl eq_refl) as [Hclosed _].
  exact (Hclosed eq_refl eq_refl).
Defined.

Lemma failed_constructor_closes_nothing_witness :
  run (breaking is_open_resource (answering "ON"))
    (DP832.with_DP832 "10.0.0.20" 5555 5000 (fun _ => DP832.get_output_state 1)) []
  = (Raise visa_error,
     [ResourceManager; OpenResource "TCPIP0::10.0.0.20::5555::SOCKET" 5000]).
Proof.
  destruct (failed_constructor_closes_nothing (breaking is_open_resource (answering "ON"))
              [] "10.0.0.20" 5555 5000 (fun _ => DP832.get_output_state 1))
    as [_ Hopen].
  exact (Hopen visa_error eq_refl eq_refl).
Defined.

Lemma close_stops_at_first_failure_witness :
  run (breaking is_inst_close (answering ""))
    (DP832.close (DP832.Instance_ "10.0.0.20" 5555 5000
                    "TCPIP0::10.0.0.20::5555::SOCKET" true true)) []
  = (Raise visa_error, [InstClose]).
Proof.
  destruct (close_stops_at_first_failure (breaking is_inst_close (answering "")) []
              (DP832.Instance_ "10.0.0.20" 5555 5000
                 "TCPIP0::10.0.0.20::5555::SOCKET" true true))
    as (_ & _ & Hfail & _).
  exact (Hfail eq_refl visa_error eq_refl).
Defined.

(** ** The stand-alone scanner *)

Lemma find_dp832_ping_ip : FindDp832.ping_ip = Discovery.ping_ip.
Proof. reflexivity. Qed.








(** X17. [find_dp832] stops at its first match: the hosts that come after it
    in the list are not probed, whatever they are. *)
Theorem first_match_ignores_later_hosts
  (w : env) (before after : list string) (history h' : list io)
  (found : string * string)
  (Hrun : run w (FindDp832.first_match before) history = (Ok (Some found), h')) :
  run w (FindDp832.first_match (before ++ after)) history = (Ok (Some found), h').
Proof.
  revert history Hrun. induction before as [| ip rest IH]; intros history Hrun.
  - discriminate Hrun.
  - revert Hrun. cbn [FindDp832.first_match app]. rewrite !run_bind.
    destruct (run w (FindDp832.test_dp832_connection ip) history) as [[[d |] | e] h1];
      [| | discriminate].
    + destruct (truthy (Some d)); [exact (fun E => E) | apply IH].
    + apply IH.
Qed.

Lemma first_match_ignores_later_hosts_witness :
  fst (run lab (FindDp832.first_match (["10.0.0.20"] ++ ["10.0.0.10"; "10.0.0.30"])) [])
  = Ok (Some ("10.0.0.20", matching_id)).
Proof.
  assert (Hrun : exists h', run lab (FindDp832.first_match ["10.0.0.20"]) []
                            = (Ok (Some ("10.0.0.20", matching_id)), h'))
    by (eexists; vm_compute; reflexivity).
  destruct Hrun as [h' Hrun].
  now rewrite (first_match_ignores_later_hosts lab ["10.0.0.20"]
                 ["10.0.0.10"; "10.0.0.30"] [] h' _ Hrun).
Defined.

(** ** The adapter's helpers *)


(** X19. [get_connection_string] makes no call.  An address or a port given
    by the caller wins over the configured one, also the empty address and
    the port 0; it raises ValueError exactly when no address is given and
    none is configured.  For an address and a port it answers the resource
    the constructor of the client opens. *)
Theorem connection_string_prefers_arguments
  (DEFAULT_IP : option string) (DEFAULT_PORT : Z) :
  (forall ip port,
      ip = None -> DEFAULT_IP = None ->
      Mcp.get_connection_string DEFAULT_IP DEFAULT_PORT ip port
      = Throw (Exn ValueError
                 "No IP address configured. Set RIGOL_DP832_IP environment variable or provide IP parameter."))
  /\ (forall address port,
        Mcp.get_connection_string DEFAULT_IP DEFAULT_PORT (Some address) (Some port)
        = Ret ("TCPIP0::" ++ address ++ "::" ++ PyStr.str_int port ++ "::SOCKET"))
  /\ (forall address,
        Mcp.get_connection_string DEFAULT_IP DEFAULT_PORT (Some address) None
        = Ret ("TCPIP0::" ++ address ++ "::" ++ PyStr.str_int DEFAULT_PORT ++ "::SOCKET"))
  /\ (forall configured port,
        DEFAULT_IP = Some configured ->
        Mcp.get_connection_string DEFAULT_IP DEFAULT_PORT None port
        = Ret ("TCPIP0::" ++ configured ++ "::"
                 ++ PyStr.str_int (match port with Some p => p | None => DEFAULT_PORT end)
                 ++ "::SOCKET"))
  /\ (forall address port timeout (w : env) history resource self h',
        Mcp.get_connection_string DEFAULT_IP DEFAULT_PORT (Some address) (Some port)
        = Ret resource ->
        run w (DP832.__init__ address port timeout) history = (Ok self, h') ->
        DP832.resource_string self = resource
        /\ h' = ((history ++ [ResourceManager]) ++ [OpenResource resource timeout])%list).
Proof.
  split; [| split; [| split; [| split]]].
  - intros ip port -> ->. reflexivity.
  - reflexivity.
  - reflexivity.
  - intros configured port ->. destruct port; reflexivity.
  - intros address port timeout w history resource self h' E.
    simpl in E. inversion E; subst resource. clear E.
    unfold DP832.__init__. cbn [bind run].
    destruct (w history ResourceManager) as [[] | e]; cbn [lift bind run];
      [| discriminate].
    match goal with |- context [w ?h (OpenResource ?r ?t)] =>
      destruct (w h (OpenResource r t)) as [[] | e] end; cbn [lift bind run];
      [| discriminate].
    intros E. inversion E; subst. split; reflexivity.
Qed.

(** ** Which hosts the scan opens *)

Lemma opens_only_weaken (allowed allowed' : string -> Prop) (port : Z) (e : io) :
  (forall ip, allowed ip -> allowed' ip) ->
  opens_only allowed port e -> opens_only allowed' port e.
Proof.
  intros Himp. destruct e; simpl; auto.
  intros [Ht [ip [Hip Hr]]]. split; [exact Ht |]. exists ip. auto.
Qed.

Lemma session_log (w : env) (ip : string) (port : Z) history :
  exists added,
    snd (run w (Discovery.test_dp832_connection ip port) history) = (history ++ added)%list
    /\ Forall (opens_only (eq ip) port) added.
Proof.
  assert (Hopen : opens_only (eq ip) port (OpenResource (resource_of ip port) 2000)).
  { simpl. split; [reflexivity |]. now exists ip. }
  unfold Discovery.test_dp832_connection. fold (resource_of ip port). simpl.
  step_session;
    try match goal with |- context [if ?c then _ else _] => destruct c end;
    simpl; rewrite <- ?app_assoc; simpl;
    (eexists; split; [reflexivity |]);
    repeat (constructor; [first [exact Hopen | exact I] |]); constructor.
Qed.

Lemma probe_log (w : env) (port : Z) (responsive_ips : list string) :
  forall dp832_devices history,
  exists added,
    snd (run w (Discovery.probe port responsive_ips dp832_devices) history)
    = (history ++ added)%list
    /\ Forall (opens_only (fun ip => In ip responsive_ips) port) added.
Proof.
  induction responsive_ips as [| ip rest IH]; intros dp832_devices history;
    cbn [Discovery.probe].
  - exists []. simpl. rewrite app_nil_r. split; [reflexivity | constructor].
  - rewrite run_bind.
    destruct (session_log w ip port history) as [first [Hfirst Hall1]].
    destruct (run w (Discovery.test_dp832_connection ip port) history)
      as [[device_id | e] h1]; simpl in Hfirst; subst h1.
    + assert (Hnext : forall devices,
                 exists added,
                   snd (run w (Discovery.probe port rest devices) (history ++ first)%list)
                   = (history ++ added)%list
                   /\ Forall (opens_only (fun ip' => In ip' (ip :: rest)) port) added).
      { intros devices. destruct (IH devices (history ++ first)%list) as [more [Hmore Hall2]].
        exists (first ++ more)%list. rewrite Hmore, app_assoc. split; [reflexivity |].
        apply Forall_app. split.
        - apply (Forall_impl _ (fun e => opens_only_weaken _ _ port e
                                           (fun ip' (E : ip = ip') => or_introl E))), Hall1.
        - apply (Forall_impl _ (fun e => opens_only_weaken _ _ port e
                                           (fun ip' Hin => or_intror Hin))), Hall2. }
      destruct device_id as [d |]; [destruct (truthy (Some d)) |]; apply Hnext.
    + exists first. split; [reflexivity |].
      apply (Forall_impl _ (fun e => opens_only_weaken _ _ port e
                                       (fun ip' (E : ip = ip') => or_introl E))), Hall1.
Qed.

(** X20. The scan never writes to an instrument and opens a VISA session
    only on a host that answered the ping, on the port it was given and
    with a timeout of 2000 ms: when the outcome of a ping only depends on
    the host, every resource it opens is the one of a host whose ping ended
    on return code 0. *)
Theorem scan_opens_only_responsive_hosts
  (w : env) (base : string) (port : Z) (history : list io) (alive : string -> bool)
  (Halive : forall h ip, ping_succeeded (w h (Ping ip)) = alive ip) :
  exists added,
    snd (run w (Discovery.find_dp832_devices (Some base) port) history)
    = (history ++ added)%list
    /\ Forall (opens_only (fun ip => alive ip = true) port) added.
Proof.
  destruct (scan_phases w (Some base) port history)
    as [base' [h1 [responsive_ips [Hsome [_ [_ [_ [Hfilter Hscan]]]]]]]].
  destruct (Hsome base eq_refl) as [-> ->].
  rewrite Hscan, (Hfilter alive Halive).
  set (completed := w history (AsCompleted (swept base))).
  assert (Hsweep : Forall (opens_only (fun ip => alive ip = true) port)
                     (AsCompleted (swept base) :: map Ping completed)).
  { constructor; [exact I |]. apply Forall_forall. intros e He.
    apply in_map_iff in He as [ip [<- _]]. exact I. }
  destruct (filter alive completed) as [| ip rest] eqn:Efilter.
  - exists (AsCompleted (swept base) :: map Ping completed). simpl.
    rewrite <- app_assoc. split; [reflexivity | exact Hsweep].
  - destruct (probe_log w port (ip :: rest) []
                ((history ++ [AsCompleted (swept base)]) ++ map Ping completed)%list)
      as [added [Hlog Hall]].
    exists ((AsCompleted (swept base) :: map Ping completed) ++ added)%list.
    rewrite Hlog, <- !app_assoc. split; [reflexivity |].
    apply Forall_app. split; [exact Hsweep |].
    apply (Forall_impl _ (fun e => opens_only_weaken _ _ port e
             (fun ip' Hin => proj2 (proj1 (filter_In alive ip' completed)
                                      (eq_ind_r (fun l => In ip' l) Hin Efilter))))), Hall.
Qed.

Lemma scan_opens_only_responsive_hosts_witness :
  exists added,
    snd (run lab (Discovery.find_dp832_devices (Some "10.0.0") 5555) []) = added
    /\ Forall (opens_only
                 (fun ip => (String.eqb ip "10.0.0.10" || String.eqb ip "10.0.0.20") = true)
                 5555) added.
Proof.
  destruct (scan_opens_only_responsive_hosts lab "10.0.0" 5555 []
              (fun ip => String.eqb ip "10.0.0.10" || String.eqb ip "10.0.0.20"))
    as [added [Hlog Hall]].
  - intros h ip. simpl.
    destruct (String.eqb ip "10.0.0.10" || String.eqb ip "10.0.0.20"); reflexivity.
  - exists added. split; [exact Hlog | exact Hall].
Defined.


Lemma connection_string_prefers_arguments_witness :
  Mcp.get_connection_string (Some "192.168.1.100") 5555 (Some "") (Some 0%Z)
  = Ret "TCPIP0::::0::SOCKET".
Proof.
  destruct (connection_string_prefers_arguments (Some "192.168.1.100") 5555)
    as (_ & Hgiven & _).
  exact (Hgiven "" 0%Z).
Defined.

(** ** Setting, then reading back *)

Lemma rstrip_app_kept (s t : string) :
  t <> "" -> PyStr.rstrip t = t -> PyStr.rstrip (s ++ t) = s ++ t.
Proof.
  intros Hne Ht. induction s as [| c s IH]; simpl; [exact Ht |].
  rewrite IH. destruct (s ++ t) eqn:E; [| reflexivity].
  destruct s; simpl in E; [now subst t | discriminate E].
Qed.

Lemma lstrip_app_sep (s : string) (c : ascii) (t : string) :
  PyStr.isspace c = false ->
  PyStr.lstrip (s ++ String c t) = PyStr.lstrip s ++ String c t.
Proof.
  intros Hc. rewrite lstrip_app.
  destruct (PyStr.lstrip s); [simpl; now rewrite Hc | reflexivity].
Qed.

Lemma string_app_assoc (s t u : string) : (s ++ t) ++ u = s ++ (t ++ u).
Proof. induction s as [| c s IH]; simpl; [reflexivity | now rewrite IH]. Qed.

Lemma strip_trimmed (s : string) : trimmed s -> PyStr.strip s = s.
Proof. intros [Hl Hr]. unfold PyStr.strip. now rewrite Hl, Hr. Qed.

(** X21. Setting a flag and reading it back on an instrument that answers
    the token written gives the flag set: the tokens ON and OFF the setters
    write are the ones the getters read, for the output state and for both
    protections. *)
Theorem flag_set_then_read_back
  (channel : Z) (flag : bool) (w : env) (history : list io)
  (H : In channel valid_channels) :
  let token := if flag then "ON" else "OFF" in
  (echoes w history (":OUTP:STAT " ++ DP832.CH channel ++ "," ++ token)
     (":OUTP:STAT? " ++ DP832.CH channel) token ->
   fst (run w (DP832.set_output_state channel flag ;;; DP832.get_output_state channel)
          history) = Ok flag)
  /\ (echoes w history (":OUTP:OCP " ++ DP832.CH channel ++ "," ++ token)
        (":OUTP:OCP? " ++ DP832.CH channel) token ->
      fst (run w (DP832.set_ocp_enabled channel flag ;;; DP832.get_ocp_enabled channel)
             history) = Ok flag)
  /\ (echoes w history (":OUTP:OVP " ++ DP832.CH channel ++ "," ++ token)
        (":OUTP:OVP? " ++ DP832.CH channel) token ->
      fst (run w (DP832.set_ovp_enabled channel flag ;;; DP832.get_ovp_enabled channel)
             history) = Ok flag).
Proof.
  intros token.
  assert (Hread : String.eqb (PyStr.strip token) "ON" = flag)
    by (subst token; destruct flag; reflexivity).
  unfold DP832.set_output_state, DP832.get_output_state, DP832.set_ocp_enabled,
    DP832.get_ocp_enabled, DP832.set_ovp_enabled, DP832.get_ovp_enabled.
  fold token.
  split; [| split]; intros [Hw Hq];
    rewrite run_bind, (validate_ok channel H), !bind_ret_l;
    unfold DP832.write; cbn [run]; rewrite Hw; cbn [lift run];
    rewrite run_query, Hq; cbn [run fst]; now rewrite Hread.
Qed.

Lemma flag_set_then_read_back_witness :
  In 1%Z valid_channels
  /\ fst (run (answering "OFF")
            (DP832.set_output_state 1 false ;;; DP832.get_output_state 1) [])
     = Ok false.
Proof.
  split; [exact one_is_valid |].
  destruct (flag_set_then_read_back 1 false (answering "OFF") [] one_is_valid)
    as [Hstate _].
  exact (Hstate (conj eq_refl eq_refl)).
Defined.

Lemma comma_is_no_blank : PyStr.isspace "," = false.
Proof. reflexivity. Qed.

(** X22. Setting the voltage and current of a channel and reading them back
    on an instrument that answers the two texts written, after any first
    field, blank or not, gives the values set; so do the OCP and OVP levels
    on an instrument that answers the text written.  The values are floats
    that print as a text [float] reads back (any float but NaN). *)
Theorem values_set_then_read_back
  (F : PyFloat) (channel : Z) (voltage current : pyfloat) (first_field : string)
  (w : env) (history : list io)
  (H : In channel valid_channels)
  (Hvoltage : reads_back voltage) (Hcurrent : reads_back current) :
  let v := string_of_float voltage in
  let c := string_of_float current in
  (echoes w history (":APPL " ++ DP832.CH channel ++ "," ++ v ++ "," ++ c)
     (":APPL? " ++ DP832.CH channel) (first_field ++ "," ++ v ++ "," ++ c) ->
   fst (run w (DP832.set_channel_settings channel voltage current ;;;
               DP832.get_channel_settings channel) history)
   = Ok [("voltage", voltage); ("current", current)])
  /\ (echoes w history (":OUTP:OCP:VAL " ++ DP832.CH channel ++ "," ++ c)
        (":OUTP:OCP:VAL? " ++ DP832.CH channel) c ->
      fst (run w (DP832.set_ocp_value channel current ;;;
                  DP832.get_ocp_value channel) history)
      = Ok current)
  /\ (echoes w history (":OUTP:OVP:VAL " ++ DP832.CH channel ++ "," ++ v)
        (":OUTP:OVP:VAL? " ++ DP832.CH channel) v ->
      fst (run w (DP832.set_ovp_value channel voltage ;;;
                  DP832.get_ovp_value channel) history)
      = Ok voltage).
Proof.
  intros v c.
  destruct Hvoltage as (Hv_read & Hv_comma & Hv_ne & Hv_trim).
  destruct Hcurrent as (Hc_read & Hc_comma & Hc_ne & Hc_trim).
  fold v in Hv_read, Hv_comma, Hv_ne, Hv_trim.
  fold c in Hc_read, Hc_comma, Hc_ne, Hc_trim.
  unfold DP832.set_channel_settings, DP832.get_channel_settings,
    DP832.set_ocp_value, DP832.get_ocp_value, DP832.set_ovp_value, DP832.get_ovp_value.
  fold v c.
  split; [| split]; intros [Hw Hq];
    rewrite run_bind, (validate_ok channel H), !bind_ret_l;
    unfold DP832.write; cbn [run]; rewrite Hw; cbn [lift run];
    rewrite run_query, Hq.
  - assert (Hstrip : PyStr.strip (first_field ++ "," ++ v ++ "," ++ c)
                     = PyStr.lstrip first_field ++ "," ++ v ++ "," ++ c).
    { unfold PyStr.strip.
      change (first_field ++ "," ++ v ++ "," ++ c)
        with (first_field ++ String "," (v ++ "," ++ c)).
      change (PyStr.lstrip first_field ++ "," ++ v ++ "," ++ c)
        with (PyStr.lstrip first_field ++ String "," (v ++ "," ++ c)).
      rewrite (lstrip_app_sep first_field "," _ comma_is_no_blank).
      replace (PyStr.lstrip first_field ++ String "," (v ++ "," ++ c))
        with ((PyStr.lstrip first_field ++ String "," (v ++ ",")) ++ c).
      - apply rstrip_app_kept; [exact Hc_ne | exact (proj2 Hc_trim)].
      - rewrite string_app_assoc. simpl. now rewrite string_app_assoc. }
    rewrite Hstrip.
    change (PyStr.lstrip first_field ++ "," ++ v ++ "," ++ c)
      with (PyStr.lstrip first_field ++ String "," (v ++ String "," c)).
    rewrite !split_app_sep, (split_without_sep "," v Hv_comma),
      (split_without_sep "," c Hc_comma).
    change ([v] ++ [c])%list with [v; c].
    rewrite run_field, item_last_but_one, Hv_read, run_field, item_last, Hc_read.
    reflexivity.
  - rewrite (strip_trimmed c Hc_trim), (float_some _ _ Hc_read). reflexivity.
  - rewrite (strip_trimmed v Hv_trim), (float_some _ _ Hv_read). reflexivity.
Qed.

Lemma values_set_then_read_back_witness :
  In 1%Z valid_channels
  /\ reads_back (F := DecimalFloat.decimal_float) (DecimalFloat.Finite false 5 0)
  /\ fst (run (answering "  CH1:30V/3A,5.0,1.0")
            (DP832.set_channel_settings (F := DecimalFloat.decimal_float) 1
               (DecimalFloat.Finite false 5 0) (DecimalFloat.Finite false 1 0) ;;;
             DP832.get_channel_settings (F := DecimalFloat.decimal_float) 1) [])
     = Ok [("voltage", DecimalFloat.Finite false 5 0);
           ("current", DecimalFloat.Finite false 1 0)].
Proof.
  assert (Hreads : forall m,
             (m = 5%N \/ m = 1%N) ->
             reads_back (F := DecimalFloat.decimal_float) (DecimalFloat.Finite false m 0)).
  { intros m [-> | ->]; (split; [reflexivity |]); (split; [reflexivity |]);
      (split; [discriminate |]); split; reflexivity. }
  split; [exact one_is_valid |]. split; [apply Hreads; now left |].
  destruct (values_set_then_read_back DecimalFloat.decimal_float 1
              (DecimalFloat.Finite false 5 0) (DecimalFloat.Finite false 1 0)
              "  CH1:30V/3A" (answering "  CH1:30V/3A,5.0,1.0") [] one_is_valid
              (Hreads 5%N (or_introl eq_refl)) (Hreads 1%N (or_intror eq_refl)))
    as [Hsettings _].
  exact (Hsettings (conj eq_refl eq_refl)).
Defined.
